(** * MirrorMirrorEngine (PenPals backend): handlers over an explicit database state

    The Flask route handlers of [src/app/main.py] and
    [src/app/blueprint/{friends,posts,webex}_bp.py] are embedded as pure
    functions from a database state (and the request) to a new database
    state and a result.  A handler's result is the pair Flask receives,
    [jsonify(body), status_code], or an exception that escapes the handler.

    Conventions of the embedding:
    - a table is the list of its rows in primary-key order, so that
      [Query.first()] is the head of the filtered list;
    - [db.session.commit()] is the point where new rows receive their
      auto-increment primary key; before it, the [id] attribute of a new
      object is [None];
    - a NOT NULL column that is still [None] at commit makes the commit
      raise [IntegrityError], and nothing of the request is persisted;
    - datetimes are integers (seconds), [timedelta(hours=1)] is [3600];
    - Python [str] values are [string]s, except the password, whose
      characters are inspected one by one: it is a list of code points;
    - the external collaborators (the WebEx service, [generate_password_hash],
      [datetime.fromisoformat], [int()], [isoformat()]) are section variables. *)

From Stdlib Require Import List String Ascii ZArith NArith Bool Arith Lia.
From Stdlib Require Import DecimalString.
Import ListNotations.
Open Scope string_scope.
Open Scope list_scope.

(** ** JSON bodies and handler results *)

Unset Elimination Schemes.
Inductive json : Type :=
| JNull
| JBool (b : bool)
| JInt (z : Z)
| JStr (s : string)
| JDict (fields : list (string * json)).
Set Elimination Schemes.

(** [jsonify({"msg": m})] *)
Definition msg_body (m : string) : json := JDict [("msg", JStr m)].

Inductive result : Type :=
| Return (body : json) (status_code : nat)
| Raise (exc : string).

Definition jopt_str (o : option string) : json :=
  match o with Some s => JStr s | None => JNull end.

(** Python truthiness of an optional string: [None] and [''] are falsy. *)
Definition truthy_str (o : option string) : bool :=
  match o with
  | None => false
  | Some s => negb (String.eqb s "")
  end.

(** [str(n)] for a non-negative integer. *)
Definition str (n : nat) : string := NilEmpty.string_of_uint (Nat.to_uint n).

(** ** The models *)

(** [model/account.py] is not part of the sources at hand; the fields are the
    ones the handlers and [test_models.py] read and write. *)
Module Account.
Record t : Type := mk {
  id : nat;
  email : string;
  password_hash : string;
  organization : option string;
  webex_access_token : option string;
  webex_refresh_token : option string;
  webex_token_expires_at : option Z
}.
End Account.

Module Profile.
Record t : Type := mk {
  id : nat;
  account_id : nat;
  name : string
}.
End Profile.

(** [model/relation.py] is not part of the sources at hand; the fields are
    the ones the handlers read and write, and [test_models.py] shows the
    unique constraint on [(from_profile_id, to_profile_id)].  The handlers
    never assign [Relation.status]: a new row takes the column default, which
    is a parameter of the handlers below. *)
Module Relation.
Record t : Type := mk {
  id : nat;
  from_profile_id : nat;
  to_profile_id : nat;
  status : string
}.
End Relation.

Module FriendRequest.
Record t : Type := mk {
  id : nat;
  sender_profile_id : nat;
  receiver_profile_id : nat;
  status : string
}.
End FriendRequest.

(** [message] is [nullable=False] and has no default: an object whose
    [message] was never assigned still holds [None]. *)
Module Notification.
Record t : Type := mk {
  id : nat;
  account_id : nat;
  title : string;
  message : option string;
  type : string;
  read : bool;
  related_id : option string
}.
End Notification.

(** [liked_by] is the [post_likes] association, as the list of account ids
    the ORM loads; the composite primary key keeps it duplicate free. *)
Module Post.
Record t : Type := mk {
  id : nat;
  profile_id : nat;
  content : string;
  likes : Z;
  comments_count : Z;
  liked_by : list nat
}.
End Post.

Module MeetingInvitation.
Record t : Type := mk {
  id : nat;
  sender_profile_id : nat;
  receiver_profile_id : nat;
  title : string;
  start_time : Z;
  end_time : Z;
  status : string;
  meeting_id : option nat
}.
End MeetingInvitation.

(** A [Meeting] object exists before it is a row: [id] is [None] until the
    session flushes it.  [participants] holds profile ids. *)
Module Meeting.
Record t : Type := mk {
  id : option nat;
  webex_id : option string;
  title : string;
  start_time : Z;
  end_time : Z;
  web_link : option string;
  password : option string;
  creator_id : nat;
  participants : list nat
}.
End Meeting.

(** ** The database *)

Record DB : Type := mkDB {
  accounts : list Account.t;
  profiles : list Profile.t;
  relations : list Relation.t;
  friend_requests : list FriendRequest.t;
  notifications : list Notification.t;
  posts : list Post.t;
  meeting_invitations : list MeetingInvitation.t;
  meetings : list Meeting.t
}.

Definition set_accounts (d : DB) (x : list Account.t) : DB :=
  mkDB x (profiles d) (relations d) (friend_requests d) (notifications d)
       (posts d) (meeting_invitations d) (meetings d).
Definition set_relations (d : DB) (x : list Relation.t) : DB :=
  mkDB (accounts d) (profiles d) x (friend_requests d) (notifications d)
       (posts d) (meeting_invitations d) (meetings d).
Definition set_friend_requests (d : DB) (x : list FriendRequest.t) : DB :=
  mkDB (accounts d) (profiles d) (relations d) x (notifications d)
       (posts d) (meeting_invitations d) (meetings d).
Definition set_notifications (d : DB) (x : list Notification.t) : DB :=
  mkDB (accounts d) (profiles d) (relations d) (friend_requests d) x
       (posts d) (meeting_invitations d) (meetings d).
Definition set_posts (d : DB) (x : list Post.t) : DB :=
  mkDB (accounts d) (profiles d) (relations d) (friend_requests d)
       (notifications d) x (meeting_invitations d) (meetings d).
Definition set_meeting_invitations (d : DB) (x : list MeetingInvitation.t) : DB :=
  mkDB (accounts d) (profiles d) (relations d) (friend_requests d)
       (notifications d) (posts d) x (meetings d).
Definition set_meetings (d : DB) (x : list Meeting.t) : DB :=
  mkDB (accounts d) (profiles d) (relations d) (friend_requests d)
       (notifications d) (posts d) (meeting_invitations d) x.

(** The next auto-increment key of a table. *)
Definition next_id {A : Type} (id : A -> nat) (tbl : list A) : nat :=
  S (fold_right Nat.max 0 (map id tbl)).

(** [Model.query.get(i)] *)
Definition query_get {A : Type} (id : A -> nat) (tbl : list A) (i : nat) : option A :=
  find (fun r => Nat.eqb (id r) i) tbl.

(** Replace the row whose key is [i] (an UPDATE of a loaded object). *)
Definition update_row {A : Type} (id : A -> nat) (i : nat) (f : A -> A) (tbl : list A) : list A :=
  map (fun r => if Nat.eqb (id r) i then f r else r) tbl.

(** [account.profiles.first()] *)
Definition first_profile (d : DB) (a : Account.t) : option Profile.t :=
  find (fun p => Nat.eqb (Profile.account_id p) (Account.id a)) (profiles d).

(** ** Request bodies

    [request.json] is [None] when there is no (or an empty) body; a key that
    is absent or [null] reads as [None] through [data.get]. *)

Module RegisterData.
Record t : Type := mk {
  email : option string;
  password : option (list N);
  organization : option string
}.
End RegisterData.

Module FriendRequestData.
Record t : Type := mk {
  classroomId : option nat
}.
End FriendRequestData.

(** [classroom_id] arrives as a JSON number or a JSON string. *)
Inductive classroom_ref : Type :=
| CInt (z : Z)
| CStr (s : string).

(** [title] is [None] when the key is absent, so that [data.get('title',
    'Classroom Meeting')] takes its default. *)
Module MeetingData.
Record t : Type := mk {
  title : option string;
  start_time : option string;
  end_time : option string;
  classroom_id : option classroom_ref
}.
End MeetingData.

(** What the WebEx service returns: the token dictionary of
    [refresh_access_token] and the meeting dictionary of [create_meeting];
    [None] is an absent key. *)
Module TokenData.
Record t : Type := mk {
  access_token : option string;
  refresh_token : option string;
  expires_in : option Z
}.
End TokenData.

Module WebexMeeting.
Record t : Type := mk {
  id : option string;
  title : option string;
  webLink : option string;
  password : option string
}.
End WebexMeeting.

(** ** main.py: the password classes *)

(** [[chr(i) for i in range(ord('A'), ord('Z')+1)]] and its two siblings. *)
Definition capital_letters : list N := map N.of_nat (seq 65 26).
Definition lowercase_letters : list N := map N.of_nat (seq 97 26).
Definition digits : list N := map N.of_nat (seq 48 10).

(** [c in l] *)
Definition py_in (c : N) (l : list N) : bool := existsb (N.eqb c) l.

(** [any(f(c) for c in l)] *)
Definition any {A : Type} (f : A -> bool) (l : list A) : bool := existsb f l.

Definition has_upper (password : list N) : bool :=
  any (fun c => py_in c capital_letters) password.
Definition has_lower (password : list N) : bool :=
  any (fun c => py_in c lowercase_letters) password.
Definition has_digit (password : list N) : bool :=
  any (fun c => py_in c digits) password.
Definition has_special (password : list N) : bool :=
  any (fun c => negb (py_in c capital_letters)
                && negb (py_in c lowercase_letters)
                && negb (py_in c digits)) password.

(** The condition of line 105 of [main.py], before its negation. *)
Definition password_valid (password : list N) : bool :=
  (8 <=? List.length password)%nat && has_upper password && has_lower password
  && has_digit password && has_special password.

Definition weak_password_msg : string :=
  "Password must be at least 8 characters and include one uppercase, one lowercase, one digit, and one special character.".

(** The code points of an ASCII literal. *)
Definition codepoints (s : string) : list N :=
  map N_of_ascii (list_ascii_of_string s).

(** ** Attribute assignment and the session *)

Definition FriendRequest_set_status (s : string) (r : FriendRequest.t) : FriendRequest.t :=
  FriendRequest.mk (FriendRequest.id r) (FriendRequest.sender_profile_id r)
                   (FriendRequest.receiver_profile_id r) s.

Definition Post_set_likes (l : list nat) (n : Z) (p : Post.t) : Post.t :=
  Post.mk (Post.id p) (Post.profile_id p) (Post.content p) n
          (Post.comments_count p) l.

(** A [Relation.query.filter(...)] on the ordered pair [(f, t)]. *)
Definition relation_from_to (f t : nat) (r : Relation.t) : bool :=
  Nat.eqb (Relation.from_profile_id r) f && Nat.eqb (Relation.to_profile_id r) t.

(** [FriendRequest.query.filter_by(sender_profile_id=s, receiver_profile_id=r,
    status='pending')] *)
Definition pending_from_to (s r : nat) (q : FriendRequest.t) : bool :=
  Nat.eqb (FriendRequest.sender_profile_id q) s
  && Nat.eqb (FriendRequest.receiver_profile_id q) r
  && String.eqb (FriendRequest.status q) "pending".

(** INSERT of a new [Notification]; [n] carries the attributes the handler
    assigned, [read] takes its default [False], and a [message] that was
    never assigned violates NOT NULL. *)
Definition insert_notification (d : DB) (n : Notification.t) : option DB :=
  match Notification.message n with
  | None => None
  | Some _ =>
      Some (set_notifications d
         (notifications d ++
          [Notification.mk (next_id Notification.id (notifications d))
             (Notification.account_id n) (Notification.title n)
             (Notification.message n) (Notification.type n) false
             (Notification.related_id n)]))
  end.

Definition insert_friend_request (d : DB) (s r : nat) (st : string) : DB :=
  set_friend_requests d
    (friend_requests d ++
     [FriendRequest.mk (next_id FriendRequest.id (friend_requests d)) s r st]).

(** [l.remove(x)]: the first occurrence goes. *)
Fixpoint list_remove (x : nat) (l : list nat) : list nat :=
  match l with
  | [] => []
  | y :: l' => if Nat.eqb y x then l' else y :: list_remove x l'
  end.

(** [x in l] on account ids *)
Definition mem (x : nat) (l : list nat) : bool := existsb (Nat.eqb x) l.

Section Handlers.

(** werkzeug's [generate_password_hash] *)
Variable generate_password_hash : list N -> string.

(** *** main.py: register *)

Definition register (d : DB) (data : option RegisterData.t) : DB * result :=
  match data with
  | None => (d, Return (msg_body "Invalid request format") 400)
  | Some data =>
      let organization := RegisterData.organization data in
      match RegisterData.email data, RegisterData.password data with
      | Some email, Some password =>
          if String.eqb email "" || Nat.eqb (List.length password) 0 then
            (d, Return (msg_body "Missing required fields") 400)
          else if negb (password_valid password) then
            (d, Return (msg_body weak_password_msg) 400)
          else
            match find (fun a => String.eqb (Account.email a) email) (accounts d) with
            | Some _ => (d, Return (msg_body "Account already exists") 409)
            | None =>
                let account :=
                  Account.mk (next_id Account.id (accounts d)) email
                             (generate_password_hash password) organization
                             None None None in
                (set_accounts d (accounts d ++ [account]),
                 Return (JDict [("msg", JStr "Account created successfully");
                                ("account_id", JInt (Z.of_nat (Account.id account)))])
                        201)
            end
      | _, _ => (d, Return (msg_body "Missing required fields") 400)
      end
  end.

(** *** posts_bp.py: like_post, unlike_post *)

Definition likes_body (m : string) (n : Z) : json :=
  JDict [("msg", JStr m); ("likes", JInt n)].

Definition like_post (d : DB) (current_user_id post_id : nat) : DB * result :=
  match query_get Account.id (accounts d) current_user_id with
  | None => (d, Return (msg_body "User not found") 404)
  | Some account =>
      match query_get Post.id (posts d) post_id with
      | None => (d, Return (msg_body "Post not found") 404)
      | Some post =>
          if mem (Account.id account) (Post.liked_by post) then
            (d, Return (likes_body "Already liked" (Post.likes post)) 200)
          else
            let liked_by := Post.liked_by post ++ [Account.id account] in
            let likes := (Post.likes post + 1)%Z in
            (set_posts d (update_row Post.id (Post.id post)
                                     (Post_set_likes liked_by likes) (posts d)),
             Return (likes_body "Post liked" likes) 200)
      end
  end.

Definition unlike_post (d : DB) (current_user_id post_id : nat) : DB * result :=
  match query_get Account.id (accounts d) current_user_id with
  | None => (d, Return (msg_body "User not found") 404)
  | Some account =>
      match query_get Post.id (posts d) post_id with
      | None => (d, Return (msg_body "Post not found") 404)
      | Some post =>
          if negb (mem (Account.id account) (Post.liked_by post)) then
            (d, Return (likes_body "Not liked yet" (Post.likes post)) 200)
          else
            let liked_by := list_remove (Account.id account) (Post.liked_by post) in
            let likes := if (Post.likes post >? 0)%Z
                         then (Post.likes post - 1)%Z else Post.likes post in
            (set_posts d (update_row Post.id (Post.id post)
                                     (Post_set_likes liked_by likes) (posts d)),
             Return (likes_body "Post unliked" likes) 200)
      end
  end.

End Handlers.

(** ** friends_bp.py: send_friend_request *)

Section Friends.

(** The column default of [Relation.status]. *)
Variable Relation_status_default : string.

(** INSERT of a new [Relation]: the row takes the next key and the status
    default; the unique constraint on the ordered pair may refuse it. *)
Definition insert_relation (d : DB) (f t : nat) : option DB :=
  if existsb (relation_from_to f t) (relations d) then None
  else Some (set_relations d
         (relations d ++ [Relation.mk (next_id Relation.id (relations d)) f t
                                     Relation_status_default])).

Definition status_body (m s : string) : json :=
  JDict [("msg", JStr m); ("status", JStr s)].

(** The two-directional filter of the "already friends" check. *)
Definition relation_between (a b : nat) (r : Relation.t) : bool :=
  relation_from_to a b r || relation_from_to b a r.

Definition send_friend_request (d : DB) (current_user_id : nat)
           (data : option FriendRequestData.t) : DB * result :=
  match query_get Account.id (accounts d) current_user_id with
  | None => (d, Return (msg_body "User not found") 404)
  | Some account =>
  match first_profile d account with
  | None => (d, Return (msg_body "Profile not found") 404)
  | Some sender_profile =>
  match data with
  | None => (d, Return (msg_body "Request body is required") 400)
  | Some data =>
  match FriendRequestData.classroomId data with
  | None => (d, Return (msg_body "Target classroom ID is required") 400)
  | Some target_classroom_id =>
  if Nat.eqb target_classroom_id 0 then
    (d, Return (msg_body "Target classroom ID is required") 400)
  else
  match query_get Profile.id (profiles d) target_classroom_id with
  | None => (d, Return (msg_body "Target classroom not found") 404)
  | Some target_profile =>
  let s := Profile.id sender_profile in
  let t := Profile.id target_profile in
  if Nat.eqb s t then
    (d, Return (msg_body "Cannot add yourself as a friend") 400)
  else
  match find (relation_between s t) (relations d) with
  | Some _ => (d, Return (msg_body "Already friends") 400)
  | None =>
  match find (pending_from_to s t) (friend_requests d) with
  | Some _ => (d, Return (msg_body "Friend request already sent") 400)
  | None =>
  match find (pending_from_to t s) (friend_requests d) with
  | Some reverse_request =>
      (* Auto-accept since both want to be friends *)
      let d1 := set_friend_requests d
                  (update_row FriendRequest.id (FriendRequest.id reverse_request)
                              (FriendRequest_set_status "accepted")
                              (friend_requests d)) in
      let notif :=
        Notification.mk 0 (Profile.account_id target_profile)
          "Friend Request Accepted"
          (Some (Profile.name sender_profile ++ " accepted your friend request!")%string)
          "success" false (Some (str s)) in
      match insert_relation d1 t s with
      | None => (d, Raise "IntegrityError")
      | Some d2 =>
      match insert_relation d2 s t with
      | None => (d, Raise "IntegrityError")
      | Some d3 =>
      match insert_notification d3 notif with
      | None => (d, Raise "IntegrityError")
      | Some d4 =>
          (d4, Return (status_body "Friend request accepted (mutual)" "accepted") 200)
      end end end
  | None =>
      (* Create new request; [notif.message] is never assigned *)
      let d1 := insert_friend_request d s t "pending" in
      let notif :=
        Notification.mk 0 (Profile.account_id target_profile)
          "New Friend Request" None "friend_request_received" false
          (Some (str s)) in
      match insert_notification d1 notif with
      | None => (d, Raise "IntegrityError")
      | Some d2 => (d2, Return (status_body "Friend request sent" "pending") 201)
      end
  end end end end end end end end.

End Friends.

(** ** webex_bp.py *)

(** A call to an external collaborator returns or raises. *)
Inductive call (A : Type) : Type :=
| Ok (a : A)
| Raises (e : string).
Arguments Ok {A} a.
Arguments Raises {A} e.

(** [s.endswith('Z')] *)
Fixpoint endswith_Z (s : string) : bool :=
  match s with
  | EmptyString => false
  | String c EmptyString => Ascii.eqb c "Z"
  | String _ s' => endswith_Z s'
  end.

(** [s[:-1]] *)
Fixpoint drop_last (s : string) : string :=
  match s with
  | EmptyString => EmptyString
  | String _ EmptyString => EmptyString
  | String c s' => String c (drop_last s')
  end.

(** [if s.endswith('Z'): s = s[:-1]] *)
Definition strip_Z (s : string) : string :=
  if endswith_Z s then drop_last s else s.

(** [not classroom_id] *)
Definition classroom_ref_falsy (c : classroom_ref) : bool :=
  match c with
  | CInt z => Z.eqb z 0
  | CStr s => String.eqb s ""
  end.

(** [isinstance(classroom_id, str) and classroom_id.startswith('dummy_')] *)
Definition is_dummy (c : classroom_ref) : bool :=
  match c with
  | CInt _ => false
  | CStr s => String.prefix "dummy_" s
  end.

(** [Profile.query.get(i)] for an integer of either sign. *)
Definition profile_get (d : DB) (i : Z) : option Profile.t :=
  if (i <? 0)%Z then None else query_get Profile.id (profiles d) (Z.to_nat i).

Definition timedelta_hours (h : Z) : Z := (h * 3600)%Z.

Definition MeetingInvitation_set_status (s : string) (i : MeetingInvitation.t)
  : MeetingInvitation.t :=
  MeetingInvitation.mk (MeetingInvitation.id i)
    (MeetingInvitation.sender_profile_id i) (MeetingInvitation.receiver_profile_id i)
    (MeetingInvitation.title i) (MeetingInvitation.start_time i)
    (MeetingInvitation.end_time i) s (MeetingInvitation.meeting_id i).

Definition MeetingInvitation_set_meeting_id (m : option nat) (i : MeetingInvitation.t)
  : MeetingInvitation.t :=
  MeetingInvitation.mk (MeetingInvitation.id i)
    (MeetingInvitation.sender_profile_id i) (MeetingInvitation.receiver_profile_id i)
    (MeetingInvitation.title i) (MeetingInvitation.start_time i)
    (MeetingInvitation.end_time i) (MeetingInvitation.status i) m.

(** [new_meeting.participants.append(p)] *)
Definition Meeting_append_participant (p : nat) (m : Meeting.t) : Meeting.t :=
  Meeting.mk (Meeting.id m) (Meeting.webex_id m) (Meeting.title m)
    (Meeting.start_time m) (Meeting.end_time m) (Meeting.web_link m)
    (Meeting.password m) (Meeting.creator_id m) (Meeting.participants m ++ [p]).

(** The flush gives a pending [Meeting] its primary key. *)
Definition Meeting_set_id (i : nat) (m : Meeting.t) : Meeting.t :=
  Meeting.mk (Some i) (Meeting.webex_id m) (Meeting.title m)
    (Meeting.start_time m) (Meeting.end_time m) (Meeting.web_link m)
    (Meeting.password m) (Meeting.creator_id m) (Meeting.participants m).

Definition Meeting_key (m : Meeting.t) : nat :=
  match Meeting.id m with Some i => i | None => 0 end.

Definition Account_set_tokens (a r : option string) (e : option Z) (x : Account.t)
  : Account.t :=
  Account.mk (Account.id x) (Account.email x) (Account.password_hash x)
             (Account.organization x) a r e.

Section Webex.

(** [datetime.fromisoformat]; [None] is [ValueError]. *)
Variable fromisoformat : string -> option Z.
(** [datetime.isoformat] *)
Variable isoformat : Z -> string.
(** [int(s)] on a string; [None] is [ValueError]. *)
Variable py_int : string -> option Z.
(** [webex_service.refresh_access_token(refresh_token)] *)
Variable refresh_access_token : option string -> call TokenData.t.
(** [webex_service.create_meeting(access_token, title, start, end)] *)
Variable create_meeting : option string -> string -> Z -> Z -> call WebexMeeting.t.

(** [int(classroom_id)] *)
Definition classroom_ref_int (c : classroom_ref) : option Z :=
  match c with
  | CInt z => Some z
  | CStr s => py_int s
  end.

(** Lines 129-144: the time window of the invitation; [None] is the
    [ValueError] branch. *)
Definition meeting_window (now : Z) (start_time_str end_time_str : option string)
  : option (Z * Z) :=
  if negb (truthy_str start_time_str) || negb (truthy_str end_time_str) then
    (* Default to instant meeting (now + 1 hour) *)
    let start_time := now in
    let end_time := (start_time + timedelta_hours 1)%Z in
    Some (start_time, end_time)
  else
    match start_time_str, end_time_str with
    | Some s, Some e =>
        match fromisoformat (strip_Z s) with
        | None => None
        | Some start_time =>
            match fromisoformat (strip_Z e) with
            | None => None
            | Some end_time => Some (start_time, end_time)
            end
        end
    | _, _ => None
    end.

Definition create_webex_meeting (d : DB) (now : Z) (current_user_id : nat)
           (data : MeetingData.t) : DB * result :=
  match query_get Account.id (accounts d) current_user_id with
  | None => (d, Return (msg_body "User not found") 404)
  | Some account =>
  match first_profile d account with
  | None => (d, Return (msg_body "No profile found for account") 400)
  | Some creator_profile =>
  let title := match MeetingData.title data with
               | Some t => t
               | None => "Classroom Meeting"
               end in
  match MeetingData.classroom_id data with
  | None => (d, Return (msg_body "classroom_id is required") 400)
  | Some classroom_id =>
  if classroom_ref_falsy classroom_id then
    (d, Return (msg_body "classroom_id is required") 400)
  else if is_dummy classroom_id then
    (d, Return (msg_body "Cannot invite dummy classrooms. Please use real classrooms from your network.") 400)
  else
  match classroom_ref_int classroom_id with
  | None => (d, Return (msg_body "Invalid classroom_id format") 400)
  | Some classroom_id =>
  match profile_get d classroom_id with
  | None => (d, Return (msg_body "Receiver classroom not found") 404)
  | Some receiver_profile =>
  if Nat.eqb (Profile.id creator_profile) (Profile.id receiver_profile) then
    (d, Return (msg_body "You cannot invite your own classroom") 400)
  else
  match meeting_window now (MeetingData.start_time data) (MeetingData.end_time data) with
  | None => (d, Return (msg_body "Invalid date format") 400)
  | Some (start_time, end_time) =>
      let new_invitation :=
        MeetingInvitation.mk
          (next_id MeetingInvitation.id (meeting_invitations d))
          (Profile.id creator_profile) (Profile.id receiver_profile)
          title start_time end_time "pending" None in
      (set_meeting_invitations d (meeting_invitations d ++ [new_invitation]),
       Return (JDict
         [("msg", JStr "Meeting invitation sent successfully");
          ("invitation", JDict
             [("id", JInt (Z.of_nat (MeetingInvitation.id new_invitation)));
              ("title", JStr title);
              ("start_time", JStr (isoformat start_time));
              ("end_time", JStr (isoformat end_time));
              ("status", JStr "pending")])]) 201)
  end end end end end end.

(** Lines 377-388: the refresh of an expired token.  [None] is the 403 of
    the [except] branch; otherwise the committed state and the sender's
    account as the handler holds it afterwards. *)
Definition refresh_if_expired (d : DB) (now : Z) (sender_account : Account.t)
  : option (DB * Account.t) :=
  match Account.webex_token_expires_at sender_account with
  | None => Some (d, sender_account)
  | Some expires_at =>
      if (expires_at <? now)%Z then
        match refresh_access_token (Account.webex_refresh_token sender_account) with
        | Raises _ => None
        | Ok token_data =>
            let access := TokenData.access_token token_data in
            let refresh := match TokenData.refresh_token token_data with
                           | Some r => Some r
                           | None => Account.webex_refresh_token sender_account
                           end in
            let expires := match TokenData.expires_in token_data with
                           | Some expires_in =>
                               if Z.eqb expires_in 0 then Some expires_at
                               else Some (now + expires_in)%Z
                           | None => Some expires_at
                           end in
            let sender_account' :=
              Account_set_tokens access refresh expires sender_account in
            Some (set_accounts d
                    (update_row Account.id (Account.id sender_account)
                                (fun _ => sender_account') (accounts d)),
                  sender_account')
        end
      else Some (d, sender_account)
  end.

Definition accept_invitation (d : DB) (now : Z) (current_user_id invitation_id : nat)
  : DB * result :=
  match query_get Account.id (accounts d) current_user_id with
  | None => (d, Return (msg_body "User not found") 404)
  | Some account =>
  match first_profile d account with
  | None => (d, Return (msg_body "No profile found for account") 400)
  | Some receiver_profile =>
  match query_get MeetingInvitation.id (meeting_invitations d) invitation_id with
  | None => (d, Return (msg_body "Invitation not found") 404)
  | Some invitation =>
  if negb (Nat.eqb (MeetingInvitation.receiver_profile_id invitation)
                   (Profile.id receiver_profile)) then
    (d, Return (msg_body "This invitation is not for you") 403)
  else if negb (String.eqb (MeetingInvitation.status invitation) "pending") then
    (d, Return (msg_body ("Invitation is already "
                            ++ MeetingInvitation.status invitation)%string) 400)
  else
  (* sender_account = invitation.sender.account *)
  match query_get Profile.id (profiles d)
                  (MeetingInvitation.sender_profile_id invitation) with
  | None => (d, Raise "AttributeError")
  | Some sender =>
  match query_get Account.id (accounts d) (Profile.account_id sender) with
  | None => (d, Raise "AttributeError")
  | Some sender_account =>
  if negb (truthy_str (Account.webex_access_token sender_account)) then
    (d, Return (msg_body "The meeting organizer's WebEx account is not connected") 403)
  else
  match refresh_if_expired d now sender_account with
  | None =>
      (d, Return (msg_body "Failed to refresh organizer's WebEx session. Please try again later.") 403)
  | Some (d1, sender_account) =>
  match create_meeting (Account.webex_access_token sender_account)
                       (MeetingInvitation.title invitation)
                       (MeetingInvitation.start_time invitation)
                       (MeetingInvitation.end_time invitation) with
  | Raises e =>
      (d1, Return (msg_body ("Failed to create WebEx meeting: " ++ e)%string) 500)
  | Ok webex_meeting =>
      (* Create meeting in database with sender as creator *)
      let new_meeting :=
        Meeting.mk None
          (WebexMeeting.id webex_meeting)
          (match WebexMeeting.title webex_meeting with
           | Some t => t
           | None => MeetingInvitation.title invitation
           end)
          (MeetingInvitation.start_time invitation)
          (MeetingInvitation.end_time invitation)
          (WebexMeeting.webLink webex_meeting)
          (WebexMeeting.password webex_meeting)
          (MeetingInvitation.sender_profile_id invitation)
          [] in
      (* Add the accepting classroom as a participant *)
      let new_meeting :=
        Meeting_append_participant (Profile.id receiver_profile) new_meeting in
      (* db.session.add(new_meeting): pending, not flushed *)
      (* Update invitation status *)
      let invitation := MeetingInvitation_set_status "accepted" invitation in
      let invitation :=
        MeetingInvitation_set_meeting_id (Meeting.id new_meeting) invitation in
      (* db.session.commit(): the INSERT assigns the key *)
      let new_meeting :=
        Meeting_set_id (next_id Meeting_key (meetings d1)) new_meeting in
      let d2 := set_meetings d1 (meetings d1 ++ [new_meeting]) in
      let d3 := set_meeting_invitations d2
                  (update_row MeetingInvitation.id (MeetingInvitation.id invitation)
                              (fun _ => invitation) (meeting_invitations d2)) in
      (d3,
       Return (JDict
         [("msg", JStr "Invitation accepted. Meeting created successfully!");
          ("meeting", JDict
             [("id", JInt (Z.of_nat (Meeting_key new_meeting)));
              ("title", JStr (Meeting.title new_meeting));
              ("web_link", jopt_str (Meeting.web_link new_meeting));
              ("start_time", JStr (isoformat (Meeting.start_time new_meeting)));
              ("end_time", JStr (isoformat (Meeting.end_time new_meeting)));
              ("password", jopt_str (Meeting.password new_meeting))])]) 201)
  end end end end end end end.

Definition decline_invitation (d : DB) (current_user_id invitation_id : nat)
  : DB * result :=
  match query_get Account.id (accounts d) current_user_id with
  | None => (d, Return (msg_body "User not found") 404)
  | Some account =>
  match first_profile d account with
  | None => (d, Return (msg_body "No profile found for account") 400)
  | Some receiver_profile =>
  match query_get MeetingInvitation.id (meeting_invitations d) invitation_id with
  | None => (d, Return (msg_body "Invitation not found") 404)
  | Some invitation =>
  if negb (Nat.eqb (MeetingInvitation.receiver_profile_id invitation)
                   (Profile.id receiver_profile)) then
    (d, Return (msg_body "This invitation is not for you") 403)
  else if negb (String.eqb (MeetingInvitation.status invitation) "pending") then
    (d, Return (msg_body ("Invitation is already "
                            ++ MeetingInvitation.status invitation)%string) 400)
  else
    (set_meeting_invitations d
       (update_row MeetingInvitation.id (MeetingInvitation.id invitation)
                   (MeetingInvitation_set_status "declined") (meeting_invitations d)),
     Return (msg_body "Invitation declined successfully") 200)
  end end end.

Definition cancel_invitation (d : DB) (current_user_id invitation_id : nat)
  : DB * result :=
  match query_get Account.id (accounts d) current_user_id with
  | None => (d, Return (msg_body "User not found") 404)
  | Some account =>
  match first_profile d account with
  | None => (d, Return (msg_body "No profile found for account") 400)
  | Some sender_profile =>
  match query_get MeetingInvitation.id (meeting_invitations d) invitation_id with
  | None => (d, Return (msg_body "Invitation not found") 404)
  | Some invitation =>
  if negb (Nat.eqb (MeetingInvitation.sender_profile_id invitation)
                   (Profile.id sender_profile)) then
    (d, Return (msg_body "You can only cancel invitations you sent") 403)
  else if negb (String.eqb (MeetingInvitation.status invitation) "pending") then
    (d, Return (msg_body ("Cannot cancel "
                            ++ MeetingInvitation.status invitation
                            ++ " invitation")%string) 400)
  else
    (set_meeting_invitations d
       (update_row MeetingInvitation.id (MeetingInvitation.id invitation)
                   (MeetingInvitation_set_status "cancelled") (meeting_invitations d)),
     Return (msg_body "Invitation cancelled successfully") 200)
  end end end.

End Webex.

(** * Further handlers of the same files *)

(** ** main.py: login *)

Module LoginData.
Record t : Type := mk {
  email : option string;
  password : option (list N)
}.
End LoginData.

Section Login.

(** werkzeug's [check_password_hash(pwhash, password)] *)
Variable check_password_hash : string -> list N -> bool.
(** flask_jwt_extended's [create_access_token(identity=...)] *)
Variable create_access_token : string -> string.

(** [login] reads the database and commits nothing. *)
Definition login (d : DB) (data : option LoginData.t) : result :=
  match data with
  | None => Return (msg_body "Invalid request format") 400
  | Some data =>
      match LoginData.email data, LoginData.password data with
      | Some email, Some password =>
          if String.eqb email "" || Nat.eqb (List.length password) 0 then
            Return (msg_body "Missing email or password") 400
          else
            match find (fun a => String.eqb (Account.email a) email) (accounts d) with
            | None => Return (msg_body "Invalid credentials") 401
            | Some account =>
                if negb (check_password_hash (Account.password_hash account) password)
                then Return (msg_body "Invalid credentials") 401
                else
                  (* Create JWT token with account ID as identity *)
                  let access_token := create_access_token (str (Account.id account)) in
                  Return (JDict [("access_token", JStr access_token);
                                 ("account_id", JInt (Z.of_nat (Account.id account)))])
                         200
            end
      | _, _ => Return (msg_body "Missing email or password") 400
      end
  end.

End Login.

(** ** notification_bp.py *)

Definition Notification_set_read (b : bool) (n : Notification.t) : Notification.t :=
  Notification.mk (Notification.id n) (Notification.account_id n)
    (Notification.title n) (Notification.message n) (Notification.type n) b
    (Notification.related_id n).

Definition mark_notification_read (d : DB) (current_user_id notification_id : nat)
  : DB * result :=
  let account := query_get Account.id (accounts d) current_user_id in
  let notif := query_get Notification.id (notifications d) notification_id in
  match notif, account with
  | Some notif, Some account =>
      if negb (Nat.eqb (Notification.account_id notif) (Account.id account)) then
        (d, Return (msg_body "Notification not found") 404)
      else
        (set_notifications d
           (update_row Notification.id (Notification.id notif)
                       (Notification_set_read true) (notifications d)),
         Return (msg_body "Marked as read") 200)
  | _, _ => (d, Return (msg_body "Notification not found") 404)
  end.

(** [db.session.delete(notif)]: the row with that key goes. *)
Definition delete_notification (d : DB) (current_user_id notification_id : nat)
  : DB * result :=
  let account := query_get Account.id (accounts d) current_user_id in
  let notif := query_get Notification.id (notifications d) notification_id in
  match notif, account with
  | Some notif, Some account =>
      if negb (Nat.eqb (Notification.account_id notif) (Account.id account)) then
        (d, Return (msg_body "Notification not found") 404)
      else
        (set_notifications d
           (filter (fun n => negb (Nat.eqb (Notification.id n) (Notification.id notif)))
                   (notifications d)),
         Return (msg_body "Deleted") 200)
  | _, _ => (d, Return (msg_body "Notification not found") 404)
  end.

(** ** webex_bp.py: the WebEx connection of an account *)

Section WebexAccount.

(** [webex_service.exchange_code(code)] *)
Variable exchange_code : string -> call TokenData.t.

(** Lines 27-54.  The expiry computed from [expires_in] is assigned to
    [account.webex_token_expire_at] (line 49), which is not the attribute
    [webex_token_expires_at] that every other handler reads and that
    [test_webex_token_fields] checks: the row keeps the expiry it had. *)
Definition connect_webex (d : DB) (current_user_id : nat) (code : option string)
  : DB * result :=
  match query_get Account.id (accounts d) current_user_id with
  | None => (d, Return (msg_body "User not found") 404)
  | Some account =>
      if negb (truthy_str code) then
        (d, Return (msg_body "Missing auth code") 400)
      else
        match code with
        | None => (d, Return (msg_body "Missing auth code") 400)
        | Some code =>
            match exchange_code code with
            | Raises e => (d, Return (msg_body e) 500)
            | Ok token_data =>
                let account' :=
                  Account_set_tokens (TokenData.access_token token_data)
                                     (TokenData.refresh_token token_data)
                                     (Account.webex_token_expires_at account)
                                     account in
                (set_accounts d
                   (update_row Account.id (Account.id account)
                               (fun _ => account') (accounts d)),
                 Return (msg_body "WebEx connected successfully") 200)
            end
        end
  end.

End WebexAccount.

(** Lines 56-67: [connected = account.webex_access_token is not None]. *)
Definition get_webex_status (d : DB) (current_user_id : nat) : result :=
  match query_get Account.id (accounts d) current_user_id with
  | None => Return (msg_body "User not found") 404
  | Some account =>
      let connected := match Account.webex_access_token account with
                       | Some _ => true
                       | None => false
                       end in
      Return (JDict [("connected", JBool connected)]) 200
  end.

(** Lines 69-84; [jsonify(...)] alone is answered with 200. *)
Definition webex_disconnect (d : DB) (current_user_id : nat) : DB * result :=
  match query_get Account.id (accounts d) current_user_id with
  | None => (d, Return (msg_body "User not found") 404)
  | Some account =>
      (set_accounts d
         (update_row Account.id (Account.id account)
                     (Account_set_tokens None None None) (accounts d)),
       Return (msg_body "Disconnected from WebEx successfully") 200)
  end.

(** ** webex_bp.py: manage_meeting *)

Inductive http_method : Type := GET | DELETE | PUT.

Module MeetingUpdate.
Record t : Type := mk {
  start_time : option string;
  end_time : option string
}.
End MeetingUpdate.

Definition meeting_has_id (i : nat) (m : Meeting.t) : bool :=
  match Meeting.id m with
  | Some j => Nat.eqb j i
  | None => false
  end.

(** [Meeting.query.get(i)] *)
Definition meeting_get (d : DB) (i : nat) : option Meeting.t :=
  find (meeting_has_id i) (meetings d).

Definition Meeting_set_times (s e : Z) (m : Meeting.t) : Meeting.t :=
  Meeting.mk (Meeting.id m) (Meeting.webex_id m) (Meeting.title m) s e
    (Meeting.web_link m) (Meeting.password m) (Meeting.creator_id m)
    (Meeting.participants m).

Definition invitation_links (i : nat) (inv : MeetingInvitation.t) : bool :=
  match MeetingInvitation.meeting_id inv with
  | Some j => Nat.eqb j i
  | None => false
  end.

(** [db.session.delete(meeting); db.session.commit()]: the row goes, with
    its participants; the invitations of [Meeting.invitation] (the backref of
    [MeetingInvitation.meeting], no delete cascade) have their [meeting_id]
    set to NULL. *)
Definition delete_meeting_row (d : DB) (i : nat) : DB :=
  set_meeting_invitations
    (set_meetings d (filter (fun m => negb (meeting_has_id i m)) (meetings d)))
    (map (fun inv => if invitation_links i inv
                     then MeetingInvitation_set_meeting_id None inv else inv)
         (meeting_invitations d)).

Section ManageMeeting.

Variable fromisoformat : string -> option Z.
Variable isoformat : Z -> string.
Variable refresh_access_token : option string -> call TokenData.t.
(** [webex_service.delete_meeting(access_token, webex_id)] *)
Variable delete_meeting : option string -> string -> call unit.
(** [webex_service.update_meeting(access_token, webex_id, start, end)] *)
Variable update_meeting : option string -> string -> Z -> Z -> call unit.

(** Lines 197-210: the refresh of the caller's token, only if connected; a
    refresh that raises is printed and the handler goes on. *)
Definition refresh_if_connected (d : DB) (now : Z) (account : Account.t)
  : DB * Account.t :=
  if truthy_str (Account.webex_access_token account) then
    match refresh_if_expired refresh_access_token d now account with
    | Some x => x
    | None => (d, account)
    end
  else (d, account).

(** Lines 255-261, one of the two times: [None] is [ValueError]. *)
Definition parse_time_or (current : Z) (time_str : option string) : option Z :=
  if truthy_str time_str then
    match time_str with
    | Some s => fromisoformat (strip_Z s)
    | None => Some current
    end
  else Some current.

Definition manage_meeting (d : DB) (now : Z) (method : http_method)
           (current_user_id meeting_id : nat) (data : MeetingUpdate.t)
  : DB * result :=
  match query_get Account.id (accounts d) current_user_id with
  | None => (d, Return (msg_body "User not found") 404)
  | Some account =>
  match meeting_get d meeting_id with
  | None => (d, Return (msg_body "Meeting not found") 404)
  | Some meeting =>
  (* Check authorization (creator or participant) *)
  match first_profile d account with
  | None => (d, Return (msg_body "Profile not found") 404)
  | Some profile =>
  let is_creator := Nat.eqb (Meeting.creator_id meeting) (Profile.id profile) in
  let is_participant := mem (Profile.id profile) (Meeting.participants meeting) in
  if negb (is_creator || is_participant) then
    (d, Return (msg_body "Unauthorized") 403)
  else
  let (d1, account) := refresh_if_connected d now account in
  match method with
  | GET =>
      match query_get Profile.id (profiles d1) (Meeting.creator_id meeting) with
      | None => (d1, Raise "AttributeError")
      | Some creator =>
          (d1, Return (JDict
             [("id", JInt (Z.of_nat (Meeting_key meeting)));
              ("title", JStr (Meeting.title meeting));
              ("start_time", JStr (isoformat (Meeting.start_time meeting)));
              ("end_time", JStr (isoformat (Meeting.end_time meeting)));
              ("web_link", jopt_str (Meeting.web_link meeting));
              ("password", jopt_str (Meeting.password meeting));
              ("creator_name", JStr (Profile.name creator));
              ("is_creator", JBool is_creator)]) 200)
      end
  | DELETE =>
      if negb is_creator then
        (d1, Return (msg_body "Only default creator can delete meetings") 403)
      else if negb (truthy_str (Account.webex_access_token account)) then
        (d1, Return (msg_body "WebEx not connected. Cannot delete meeting.") 403)
      else
        (* Delete from WebEx *)
        let deleted :=
          match Meeting.webex_id meeting with
          | Some webex_id =>
              if String.eqb webex_id "" then Ok tt
              else delete_meeting (Account.webex_access_token account) webex_id
          | None => Ok tt
          end in
        match deleted with
        | Raises e =>
            (d1, Return (msg_body ("Failed to delete meeting: " ++ e)%string) 500)
        | Ok _ =>
            (* Delete from DB *)
            (delete_meeting_row d1 meeting_id,
             Return (msg_body "Meeting deleted successfully") 200)
        end
  | PUT =>
      if negb is_creator then
        (d1, Return (msg_body "Only creator can update meetings") 403)
      else if negb (truthy_str (Account.webex_access_token account)) then
        (d1, Return (msg_body "WebEx not connected. Cannot update meeting.") 403)
      else
        match parse_time_or (Meeting.start_time meeting)
                            (MeetingUpdate.start_time data) with
        | None => (d1, Return (msg_body "Invalid date format") 400)
        | Some start_time =>
        match parse_time_or (Meeting.end_time meeting)
                            (MeetingUpdate.end_time data) with
        | None => (d1, Return (msg_body "Invalid date format") 400)
        | Some end_time =>
            (* Update WebEx *)
            let updated :=
              match Meeting.webex_id meeting with
              | Some webex_id =>
                  if String.eqb webex_id "" then Ok tt
                  else update_meeting (Account.webex_access_token account)
                                      webex_id start_time end_time
              | None => Ok tt
              end in
            match updated with
            | Raises e =>
                (d1, Return (msg_body ("Failed to update meeting: " ++ e)%string) 500)
            | Ok _ =>
                (set_meetings d1
                   (map (fun m => if meeting_has_id meeting_id m
                                  then Meeting_set_times start_time end_time m
                                  else m) (meetings d1)),
                 Return (msg_body "Meeting updated successfully") 200)
            end
        end end
  end
  end end end.

End ManageMeeting.

(** * Vocabulary of the specification *)

(** The policy in the words of the specification. *)
Definition is_uppercase (c : N) : Prop := (65 <= c <= 90)%N.
Definition is_lowercase (c : N) : Prop := (97 <= c <= 122)%N.
Definition is_digit (c : N) : Prop := (48 <= c <= 57)%N.

Definition meets_policy (password : list N) : Prop :=
  8 <= List.length password
  /\ (exists c, In c password /\ is_uppercase c)
  /\ (exists c, In c password /\ is_lowercase c)
  /\ (exists c, In c password /\ is_digit c)
  /\ (exists c, In c password
                /\ ~ is_uppercase c /\ ~ is_lowercase c /\ ~ is_digit c).

(** The pending friend requests between two profiles, in either direction. *)
Definition pending_between (a b : nat) (q : FriendRequest.t) : bool :=
  pending_from_to a b q || pending_from_to b a q.

(** An accepted [Relation] connects two profiles, in either direction. *)
Definition accepted_relation_between (a b : nat) (r : Relation.t) : bool :=
  relation_between a b r && String.eqb (Relation.status r) "accepted".

(** Posts: the [post_likes] key keeps a like-set duplicate free, and the
    counter is its cardinality. *)
Definition like_set_consistent (p : Post.t) : Prop :=
  NoDup (Post.liked_by p)
  /\ Post.likes p = Z.of_nat (List.length (Post.liked_by p)).

Definition likes_invariant (d : DB) : Prop :=
  forall p, In p (posts d) -> like_set_consistent p.

(** A Conflict answer of [send_friend_request]. *)
Definition is_conflict (r : result) : Prop :=
  r = Return (msg_body "Already friends") 400
  \/ r = Return (msg_body "Friend request already sent") 400.

(** The status code of an answer; an escaped exception has none. *)
Definition code_of (r : result) : nat :=
  match r with
  | Return _ c => c
  | Raise _ => 0
  end.



(** Exactly one of two optional strings is supplied, the other one being
    missing or empty. *)
Definition one_supplied (a b : option string) : Prop :=
  xorb (truthy_str a) (truthy_str b) = true.

(** Account keys and account emails are duplicate free. *)
Definition accounts_wf (d : DB) : Prop :=
  NoDup (map Account.id (accounts d))
  /\ NoDup (map Account.email (accounts d)).

(** Relation rows come in pairs: each row has its mirror, with the same
    status. *)
Definition relations_symmetric (d : DB) : Prop :=
  forall r, In r (relations d) ->
    exists r', In r' (relations d)
               /\ Relation.from_profile_id r' = Relation.to_profile_id r
               /\ Relation.to_profile_id r' = Relation.from_profile_id r
               /\ Relation.status r' = Relation.status r.

(** The unique constraint on [(from_profile_id, to_profile_id)]. *)
Definition relation_pairs_unique (d : DB) : Prop :=
  NoDup (map (fun r => (Relation.from_profile_id r, Relation.to_profile_id r))
             (relations d)).

(** * Sample states

    Alice owns "Room 9" and has connected WebEx; Bob owns "Room 4". *)

Definition alice : Account.t :=
  Account.mk 1 "alice@example.com" "pbkdf2:alice" None
             (Some "token-a") (Some "refresh-a") None.
Definition bob : Account.t :=
  Account.mk 2 "bob@example.com" "pbkdf2:bob" None None None None.
Definition room9 : Profile.t := Profile.mk 1 1 "Room 9".
Definition room4 : Profile.t := Profile.mk 2 2 "Room 4".

Definition db0 : DB := mkDB [alice; bob] [room9; room4] [] [] [] [] [] [].

(** Alice's request to Bob is pending. *)
Definition db_requested : DB :=
  set_friend_requests db0 [FriendRequest.mk 1 1 2 "pending"].

(** A Relation row from Room 9 to Room 4 whose status is 'pending', as
    [test_relation_status_values] creates one. *)
Definition db_pending_relation : DB :=
  set_relations db0 [Relation.mk 1 1 2 "pending"].

(** A post of Room 9 that Bob likes. *)
Definition db_posted : DB :=
  set_posts db0 [Post.mk 1 1 "Hello" 1 0 [2]].

(** Alice has invited Room 4; the invitation is pending. *)
Definition db_invited : DB :=
  set_meeting_invitations db0
    [MeetingInvitation.mk 1 1 2 "Pen pal call" 100 200 "pending" None].


(** Collaborators for the sample runs. *)
Definition sample_fromisoformat (s : string) : option Z := None.
Definition sample_isoformat (t : Z) : string := "1970-01-01T00:00:00".
Definition sample_py_int (s : string) : option Z := None.
Definition refresh_raises (r : option string) : call TokenData.t :=
  Raises "invalid_grant".
Definition create_meeting_raises (a : option string) (t : string) (s e : Z)
  : call WebexMeeting.t :=
  Raises "503 Service Unavailable".
Definition create_meeting_ok (a : option string) (t : string) (s e : Z)
  : call WebexMeeting.t :=
  Ok (WebexMeeting.mk (Some "wbx-1") (Some t)
                      (Some "https://meet.webex.com/wbx-1") (Some "pw1")).

Definition sample_hash (password : list N) : string := "pbkdf2:sha256".

(** Alice's invitation was accepted and the meeting exists, linked to it. *)
Definition met : Meeting.t :=
  Meeting.mk (Some 1) (Some "wbx-1") "Pen pal call" 100 200
             (Some "https://meet.webex.com/wbx-1") (Some "pw1") 1 [2].
Definition db_met : DB :=
  set_meetings
    (set_meeting_invitations db0
       [MeetingInvitation.mk 1 1 2 "Pen pal call" 100 200 "accepted" (Some 1)])
    [met].

(** Room 9 has sent two requests to Room 4, both pending. *)
Definition db_two_requests : DB :=
  set_friend_requests db0
    [FriendRequest.mk 1 1 2 "pending"; FriendRequest.mk 2 1 2 "pending"].

(** Bob has one unread notification. *)
Definition bobs_notification : Notification.t :=
  Notification.mk 1 2 "Friend Request Accepted"
                  (Some "Room 9 accepted your friend request!") "success" false
                  (Some "1").
Definition db_notified : DB := set_notifications db0 [bobs_notification].

(** Alice's token expired at 500; after a refresh at 1000 it runs to 4600. *)
Definition alice_expired : Account.t :=
  Account.mk 1 "alice@example.com" "pbkdf2:alice" None
             (Some "token-a") (Some "refresh-a") (Some 500%Z).
Definition alice_refreshed : Account.t :=
  Account.mk 1 "alice@example.com" "pbkdf2:alice" None
             (Some "token-a2") (Some "refresh-a") (Some 4600%Z).
Definition db_expired : DB := set_accounts db0 [alice_expired; bob].
Definition db_refreshed : DB := set_accounts db0 [alice_refreshed; bob].

Definition refresh_ok (r : option string) : call TokenData.t :=
  Ok (TokenData.mk (Some "token-a2") None (Some 3600%Z)).
Definition exchange_ok (code : string) : call TokenData.t :=
  Ok (TokenData.mk (Some "token-b") (Some "refresh-b") (Some 3600%Z)).
Definition check_any (h : string) (password : list N) : bool := true.
Definition sample_token (identity : string) : string := ("jwt-" ++ identity)%string.
Definition fromisoformat_5000 (s : string) : option Z := Some 5000%Z.
Definition delete_raises (a : option string) (w : string) : call unit :=
  Raises "404 Not Found".
Definition delete_ok (a : option string) (w : string) : call unit := Ok tt.
Definition update_ok (a : option string) (w : string) (s e : Z) : call unit := Ok tt.

(** * Properties *)

(** ** Registration: the password policy and duplicate emails *)

Lemma py_in_range (c : N) (a n : nat) :
  py_in c (map N.of_nat (seq a n)) = true <->
  (N.of_nat a <= c < N.of_nat (a + n))%N.
Proof.
  unfold py_in. rewrite existsb_exists. split.
  - intros [x [Hin Heq]]. apply N.eqb_eq in Heq. subst x.
    apply in_map_iff in Hin. destruct Hin as [k [Hk Hin]].
    apply in_seq in Hin. subst c. lia.
  - intros Hc. exists c. split; [| apply N.eqb_refl].
    apply in_map_iff. exists (N.to_nat c). split; [apply N2Nat.id |].
    apply in_seq. lia.
Qed.

Lemma py_in_capital (c : N) : py_in c capital_letters = true <-> is_uppercase c.
Proof. unfold capital_letters, is_uppercase. rewrite py_in_range. lia. Qed.

Lemma py_in_lowercase (c : N) : py_in c lowercase_letters = true <-> is_lowercase c.
Proof. unfold lowercase_letters, is_lowercase. rewrite py_in_range. lia. Qed.

Lemma py_in_digits (c : N) : py_in c digits = true <-> is_digit c.
Proof. unfold digits, is_digit. rewrite py_in_range. lia. Qed.

Lemma negb_py_in (c : N) (l : list N) (P : Prop) :
  (py_in c l = true <-> P) -> (negb (py_in c l) = true <-> ~ P).
Proof.
  intros H. destruct (py_in c l); simpl; split; intros H1.
  - discriminate.
  - exfalso. apply H1, H. reflexivity.
  - intros HP. apply H in HP. discriminate.
  - reflexivity.
Qed.

Lemma any_exists {A : Type} (f : A -> bool) (P : A -> Prop) (l : list A) :
  (forall x, f x = true <-> P x) ->
  (any f l = true <-> exists x, In x l /\ P x).
Proof.
  intros H. unfold any. rewrite existsb_exists.
  split; intros [x [Hin Hx]]; exists x; split; auto; apply H; auto.
Qed.

Lemma password_valid_iff (password : list N) :
  password_valid password = true <-> meets_policy password.
Proof.
  unfold password_valid, meets_policy, has_upper, has_lower, has_digit, has_special.
  rewrite !andb_true_iff, Nat.leb_le.
  rewrite (any_exists _ is_uppercase) by apply py_in_capital.
  rewrite (any_exists _ is_lowercase) by apply py_in_lowercase.
  rewrite (any_exists _ is_digit) by apply py_in_digits.
  rewrite (any_exists _ (fun c => ~ is_uppercase c /\ ~ is_lowercase c /\ ~ is_digit c)).
  - tauto.
  - intros c. rewrite !andb_true_iff.
    rewrite (negb_py_in _ _ _ (py_in_capital c)).
    rewrite (negb_py_in _ _ _ (py_in_lowercase c)).
    rewrite (negb_py_in _ _ _ (py_in_digits c)).
    tauto.
Qed.

Lemma password_invalid_iff (password : list N) :
  password_valid password = false <-> ~ meets_policy password.
Proof.
  rewrite <- password_valid_iff. destruct (password_valid password); split;
    congruence.
Qed.

Lemma find_email_some (email : string) (l : list Account.t) :
  (exists a, In a l /\ Account.email a = email) ->
  exists a, find (fun a => String.eqb (Account.email a) email) l = Some a.
Proof.
  intros [a [Hin Heq]].
  destruct (find (fun a => String.eqb (Account.email a) email) l) eqn:Hf.
  - eauto.
  - exfalso. apply (find_none _ _ Hf) in Hin. simpl in Hin.
    rewrite Heq, String.eqb_refl in Hin. discriminate.
Qed.

Section RegisterProperties.

Variable generate_password_hash : list N -> string.

Lemma register_weak (d : DB) (email : string) (pw : list N) (org : option string) :
  password_valid pw = false ->
  fst (register generate_password_hash d
         (Some (RegisterData.mk (Some email) (Some pw) org))) = d
  /\ exists body,
      snd (register generate_password_hash d
             (Some (RegisterData.mk (Some email) (Some pw) org)))
      = Return body 400.
Proof.
  intros Hw. unfold register. simpl.
  destruct (String.eqb email "" || Nat.eqb (List.length pw) 0); simpl; eauto.
  rewrite Hw. simpl. eauto.
Qed.

Lemma register_strong (d : DB) (email : string) (pw : list N) (org : option string) :
  email <> "" ->
  password_valid pw = true ->
  register generate_password_hash d
    (Some (RegisterData.mk (Some email) (Some pw) org))
  = match find (fun a => String.eqb (Account.email a) email) (accounts d) with
    | Some _ => (d, Return (msg_body "Account already exists") 409)
    | None =>
        (set_accounts d
           (accounts d ++
            [Account.mk (next_id Account.id (accounts d)) email
                        (generate_password_hash pw) org None None None]),
         Return (JDict [("msg", JStr "Account created successfully");
                        ("account_id",
                         JInt (Z.of_nat (next_id Account.id (accounts d))))])
                201)
    end.
Proof.
  intros He Hv. unfold register. simpl.
  apply String.eqb_neq in He. rewrite He. simpl.
  assert (Hlen : Nat.eqb (List.length pw) 0 = false).
  { apply password_valid_iff in Hv. destruct Hv as [Hl _].
    apply Nat.eqb_neq. lia. }
  rewrite Hlen, Hv. simpl. reflexivity.
Qed.


(** C8 (as amended): for an email that is already registered, a further
    [register] call with that email never creates an account; it is
    answered with 409 for every password that meets the password policy,
    and with the 400 of the password check, which runs first, for every
    other password. *)
Theorem register_duplicate_email
        (d : DB) (email : string) (pw : list N) (org : option string) :
  email <> "" ->
  (exists a, In a (accounts d) /\ Account.email a = email) ->
  let r := register generate_password_hash d
             (Some (RegisterData.mk (Some email) (Some pw) org)) in
  fst r = d
  /\ (meets_policy pw -> snd r = Return (msg_body "Account already exists") 409)
  /\ (~ meets_policy pw -> exists body, snd r = Return body 400).
Proof.
  intros He Hex r.
  destruct (find_email_some email (accounts d) Hex) as [a Ha].
  destruct (password_valid pw) eqn:Hv.
  - subst r. rewrite (register_strong d email pw org He Hv), Ha. simpl.
    split; [reflexivity |]. split; [reflexivity |].
    intros Hn. apply password_invalid_iff in Hn. congruence.
  - destruct (register_weak d email pw org Hv) as [Hd Hb].
    split; [exact Hd |]. split; [| intros _; exact Hb].
    intros Hp. apply password_valid_iff in Hp. congruence.
Qed.

End RegisterProperties.

(** ** Tables *)

Lemma query_get_In {A : Type} (id : A -> nat) (tbl : list A) (i : nat) (r : A) :
  query_get id tbl i = Some r -> In r tbl /\ id r = i.
Proof.
  unfold query_get. intros H. apply find_some in H. destruct H as [Hin Heq].
  apply Nat.eqb_eq in Heq. auto.
Qed.

Lemma In_update_row {A : Type} (id : A -> nat) (i : nat) (f : A -> A)
      (tbl : list A) (r' : A) :
  In r' (update_row id i f tbl) ->
  exists r, In r tbl /\ ((id r = i /\ r' = f r) \/ (id r <> i /\ r' = r)).
Proof.
  unfold update_row. intros H. apply in_map_iff in H.
  destruct H as [r [Heq Hin]]. exists r. split; [exact Hin |].
  destruct (Nat.eqb (id r) i) eqn:E.
  - left. apply Nat.eqb_eq in E. auto.
  - right. apply Nat.eqb_neq in E. auto.
Qed.

Lemma query_get_update_row {A : Type} (id : A -> nat) (i : nat) (f : A -> A)
      (tbl : list A) (r : A) :
  id (f r) = id r ->
  query_get id tbl i = Some r ->
  query_get id (update_row id i f tbl) i = Some (f r).
Proof.
  intros Hid. unfold query_get, update_row.
  induction tbl as [| x tbl IH]; simpl; [discriminate |].
  destruct (Nat.eqb (id x) i) eqn:E.
  - intros H. inversion H. subst x. rewrite Hid, E. reflexivity.
  - rewrite E. exact IH.
Qed.

(** ** Posts: the like-set and its counter *)

Lemma mem_true_iff (x : nat) (l : list nat) : mem x l = true <-> In x l.
Proof.
  unfold mem. rewrite existsb_exists. split.
  - intros [y [Hin Heq]]. apply Nat.eqb_eq in Heq. subst. exact Hin.
  - intros Hin. exists x. split; [exact Hin | apply Nat.eqb_refl].
Qed.

Lemma mem_false_iff (x : nat) (l : list nat) : mem x l = false <-> ~ In x l.
Proof.
  rewrite <- mem_true_iff. destruct (mem x l); split; congruence.
Qed.

Lemma list_remove_In (x y : nat) (l : list nat) :
  In y (list_remove x l) -> In y l.
Proof.
  induction l as [| z l IH]; simpl; [auto |].
  destruct (Nat.eqb z x); simpl; intuition.
Qed.

Lemma list_remove_other (x y : nat) (l : list nat) :
  y <> x -> In y l -> In y (list_remove x l).
Proof.
  intros Hne. induction l as [| z l IH]; simpl; [auto |].
  destruct (Nat.eqb z x) eqn:E; simpl.
  - apply Nat.eqb_eq in E. intros [H | H]; [congruence | exact H].
  - intros [H | H]; auto.
Qed.

Lemma list_remove_length (x : nat) (l : list nat) :
  In x l -> S (List.length (list_remove x l)) = List.length l.
Proof.
  induction l as [| z l IH]; simpl; [contradiction |].
  destruct (Nat.eqb z x) eqn:E; simpl; [reflexivity |].
  apply Nat.eqb_neq in E. intros [H | H]; [congruence |].
  rewrite IH; auto.
Qed.

Lemma list_remove_NoDup (x : nat) (l : list nat) :
  NoDup l -> NoDup (list_remove x l) /\ ~ In x (list_remove x l).
Proof.
  induction 1 as [| z l Hz Hnd IH]; simpl.
  - split; [constructor | auto].
  - destruct IH as [IH1 IH2]. destruct (Nat.eqb z x) eqn:E.
    + apply Nat.eqb_eq in E. subst z. auto.
    + apply Nat.eqb_neq in E. split.
      * constructor; [| exact IH1]. intros Hin. apply Hz.
        eapply list_remove_In; eauto.
      * simpl. intros [H | H]; auto.
Qed.

Lemma NoDup_snoc (x : nat) (l : list nat) :
  NoDup l -> ~ In x l -> NoDup (l ++ [x]).
Proof.
  intros Hnd Hx. induction Hnd as [| z l Hz Hnd IH]; simpl.
  - constructor; [auto | constructor].
  - constructor.
    + rewrite in_app_iff. simpl. intros [H | [H | []]]; [auto |].
      subst. apply Hx. left. reflexivity.
    + apply IH. intros H. apply Hx. right. exact H.
Qed.

Lemma like_step_consistent (x : nat) (p : Post.t) :
  like_set_consistent p -> mem x (Post.liked_by p) = false ->
  like_set_consistent
    (Post_set_likes (Post.liked_by p ++ [x]) (Post.likes p + 1)%Z p).
Proof.
  intros [Hnd Hc] Hm. apply mem_false_iff in Hm.
  unfold like_set_consistent. simpl. split.
  - apply NoDup_snoc; assumption.
  - rewrite Hc, length_app. simpl. lia.
Qed.

Lemma unlike_step_consistent (x : nat) (p : Post.t) :
  like_set_consistent p -> mem x (Post.liked_by p) = true ->
  like_set_consistent
    (Post_set_likes (list_remove x (Post.liked_by p))
       (if (Post.likes p >? 0)%Z then (Post.likes p - 1)%Z else Post.likes p) p).
Proof.
  intros [Hnd Hc] Hm. apply mem_true_iff in Hm.
  unfold like_set_consistent. simpl. split.
  - apply list_remove_NoDup. exact Hnd.
  - pose proof (list_remove_length x _ Hm) as Hl.
    rewrite Hc, <- Hl.
    destruct (Z.gtb_spec (Z.of_nat (S (List.length (list_remove x (Post.liked_by p))))) 0);
      lia.
Qed.

(** C6: if, for every post, the likes counter equals the cardinality of the
    like-set, then the same holds after [like_post] and after [unlike_post]:
    both write the membership list and the counter of the post in one
    update. *)
Theorem likes_counter_tracks_like_set (d : DB) (current_user_id post_id : nat) :
  likes_invariant d ->
  likes_invariant (fst (like_post d current_user_id post_id))
  /\ likes_invariant (fst (unlike_post d current_user_id post_id)).
Proof.
  intros Hinv. split.
  - unfold like_post.
    destruct (query_get Account.id (accounts d) current_user_id) as [a |];
      [| exact Hinv].
    destruct (query_get Post.id (posts d) post_id) as [p |] eqn:Hp;
      [| exact Hinv].
    destruct (mem (Account.id a) (Post.liked_by p)) eqn:Hm; [exact Hinv |].
    apply query_get_In in Hp. destruct Hp as [Hp _].
    intros p' Hin. simpl in Hin. apply In_update_row in Hin.
    destruct Hin as [r [Hr [[_ E] | [_ E]]]]; subst p'.
    + pose proof (like_step_consistent (Account.id a) p (Hinv p Hp) Hm) as H.
      exact H.
    + apply Hinv. exact Hr.
  - unfold unlike_post.
    destruct (query_get Account.id (accounts d) current_user_id) as [a |];
      [| exact Hinv].
    destruct (query_get Post.id (posts d) post_id) as [p |] eqn:Hp;
      [| exact Hinv].
    destruct (mem (Account.id a) (Post.liked_by p)) eqn:Hm; [| exact Hinv].
    apply query_get_In in Hp. destruct Hp as [Hp _].
    intros p' Hin. simpl in Hin. apply In_update_row in Hin.
    destruct Hin as [r [Hr [[_ E] | [_ E]]]]; subst p'.
    + pose proof (unlike_step_consistent (Account.id a) p (Hinv p Hp) Hm) as H.
      exact H.
    + apply Hinv. exact Hr.
Qed.

Lemma Post_set_likes_id (l : list nat) (n : Z) (p : Post.t) :
  Post.id (Post_set_likes l n p) = Post.id p.
Proof. reflexivity. Qed.

(** C7: for an existing account and post, [like_post] on a post the account
    already likes and [unlike_post] on a post it does not like change
    nothing and answer 200 with the current count; otherwise the account's
    membership is toggled (every other account's membership is kept), a
    like adds one to the counter, an unlike takes one off unless the counter
    is already zero, and a counter that was not negative stays so. *)
Theorem like_unlike_toggle (d : DB) (current_user_id post_id : nat)
        (a : Account.t) (p : Post.t) :
  query_get Account.id (accounts d) current_user_id = Some a ->
  query_get Post.id (posts d) post_id = Some p ->
  NoDup (Post.liked_by p) ->
  (0 <= Post.likes p)%Z ->
  (mem (Account.id a) (Post.liked_by p) = true ->
     like_post d current_user_id post_id
     = (d, Return (likes_body "Already liked" (Post.likes p)) 200))
  /\ (mem (Account.id a) (Post.liked_by p) = false ->
     unlike_post d current_user_id post_id
     = (d, Return (likes_body "Not liked yet" (Post.likes p)) 200))
  /\ (mem (Account.id a) (Post.liked_by p) = false ->
     exists p',
       query_get Post.id (posts (fst (like_post d current_user_id post_id))) post_id
       = Some p'
       /\ mem (Account.id a) (Post.liked_by p') = true
       /\ (forall b, b <> Account.id a ->
                     mem b (Post.liked_by p') = mem b (Post.liked_by p))
       /\ Post.likes p' = (Post.likes p + 1)%Z
       /\ snd (like_post d current_user_id post_id)
          = Return (likes_body "Post liked" (Post.likes p')) 200)
  /\ (mem (Account.id a) (Post.liked_by p) = true ->
     exists p',
       query_get Post.id (posts (fst (unlike_post d current_user_id post_id))) post_id
       = Some p'
       /\ mem (Account.id a) (Post.liked_by p') = false
       /\ (forall b, b <> Account.id a ->
                     mem b (Post.liked_by p') = mem b (Post.liked_by p))
       /\ Post.likes p' = Z.max 0 (Post.likes p - 1)
       /\ (0 <= Post.likes p')%Z
       /\ snd (unlike_post d current_user_id post_id)
          = Return (likes_body "Post unliked" (Post.likes p')) 200).
Proof.
  intros Ha Hp Hnd Hpos.
  pose proof (query_get_In _ _ _ _ Hp) as [_ Hid].
  repeat split.
  - intros Hm. unfold like_post. rewrite Ha, Hp, Hm. reflexivity.
  - intros Hm. unfold unlike_post. rewrite Ha, Hp, Hm. reflexivity.
  - intros Hm. unfold like_post. rewrite Ha, Hp, Hm. simpl.
    rewrite Hid.
    rewrite (query_get_update_row Post.id post_id _ (posts d) p
               (Post_set_likes_id _ _ p) Hp).
    eexists. split; [reflexivity |]. simpl. repeat split.
    + apply mem_true_iff, in_app_iff. right. left. reflexivity.
    + intros b Hb. destruct (mem b (Post.liked_by p)) eqn:E.
      * apply mem_true_iff, in_app_iff. left. apply mem_true_iff. exact E.
      * apply mem_false_iff. rewrite in_app_iff. intros [H | [H | []]].
        -- apply mem_false_iff in E. auto.
        -- congruence.
  - intros Hm. unfold unlike_post. rewrite Ha, Hp, Hm. simpl.
    rewrite Hid.
    rewrite (query_get_update_row Post.id post_id _ (posts d) p
               (Post_set_likes_id _ _ p) Hp).
    eexists. split; [reflexivity |]. simpl. repeat split.
    + apply mem_false_iff. apply list_remove_NoDup. exact Hnd.
    + intros b Hb. destruct (mem b (Post.liked_by p)) eqn:E.
      * apply mem_true_iff. apply list_remove_other; [exact Hb |].
        apply mem_true_iff. exact E.
      * apply mem_false_iff. intros H. apply list_remove_In in H.
        apply mem_false_iff in E. auto.
    + destruct (Z.gtb_spec (Post.likes p) 0); lia.
    + destruct (Z.gtb_spec (Post.likes p) 0); lia.
Qed.

(** ** Friend requests *)

Lemma find_none_intro {A : Type} (f : A -> bool) (l : list A) :
  (forall x, In x l -> f x = false) -> find f l = None.
Proof.
  intros H. destruct (find f l) eqn:E; [| reflexivity].
  apply find_some in E. destruct E as [Hin Hf].
  rewrite (H _ Hin) in Hf. discriminate.
Qed.


Lemma existsb_false_intro {A : Type} (f : A -> bool) (l : list A) :
  (forall x, In x l -> f x = false) -> existsb f l = false.
Proof.
  intros H. destruct (existsb f l) eqn:E; [| reflexivity].
  apply existsb_exists in E. destruct E as [x [Hin Hf]].
  rewrite (H _ Hin) in Hf. discriminate.
Qed.

Lemma fold_max_snoc (l : list nat) (x : nat) :
  fold_right Nat.max 0 (l ++ [x]) = Nat.max (fold_right Nat.max 0 l) x.
Proof.
  induction l as [| y l IH]; simpl; [lia |]. rewrite IH. lia.
Qed.

Lemma next_id_snoc {A : Type} (id : A -> nat) (l : list A) (x : A) :
  id x = next_id id l -> next_id id (l ++ [x]) = S (next_id id l).
Proof.
  unfold next_id. intros H. rewrite map_app. simpl.
  rewrite fold_max_snoc, H. f_equal. lia.
Qed.



Section FriendProperties.

Variable Relation_status_default : string.


End FriendProperties.

Section ConflictProperties.

Variable Relation_status_default : string.

(** C5 (as amended): for a caller whose profile A exists and an existing
    target profile B other than A, the request fails with a Conflict
    exactly when some Relation row, whatever its status, connects A and B
    in either direction, or a pending request from A to B already exists;
    in the Conflict case nothing is written: no FriendRequest, Relation or
    Notification is created. *)
Theorem send_friend_request_conflict_iff
      (d : DB) (current_user_id : nat) (account : Account.t)
      (A B : Profile.t) :
  query_get Account.id (accounts d) current_user_id = Some account ->
  first_profile d account = Some A ->
  query_get Profile.id (profiles d) (Profile.id B) = Some B ->
  Profile.id B <> 0 ->
  Profile.id A <> Profile.id B ->
  let r := send_friend_request Relation_status_default d current_user_id
             (Some (FriendRequestData.mk (Some (Profile.id B)))) in
  (is_conflict (snd r) <->
     existsb (relation_between (Profile.id A) (Profile.id B)) (relations d) = true
     \/ existsb (pending_from_to (Profile.id A) (Profile.id B)) (friend_requests d)
        = true)
  /\ (is_conflict (snd r) -> fst r = d).
Proof.
  intros Hacc HA HB HB0 Hne r. subst r.
  unfold send_friend_request.
  rewrite Hacc, HA. cbn [FriendRequestData.classroomId].
  replace (Nat.eqb (Profile.id B) 0) with false
    by (symmetry; apply Nat.eqb_neq; exact HB0).
  rewrite HB.
  replace (Nat.eqb (Profile.id A) (Profile.id B)) with false
    by (symmetry; apply Nat.eqb_neq; exact Hne).
  set (a := Profile.id A). set (b := Profile.id B).
  destruct (find (relation_between a b) (relations d)) as [x |] eqn:Hrel.
  { cbn [fst snd]. split; [| reflexivity]. split.
    - intros _. left. apply existsb_exists. exists x.
      apply find_some in Hrel. exact Hrel.
    - intros _. left. reflexivity. }
  assert (Hnrel : existsb (relation_between a b) (relations d) = false).
  { apply existsb_false_intro. intros y Hy. exact (find_none _ _ Hrel y Hy). }
  destruct (find (pending_from_to a b) (friend_requests d)) as [x |] eqn:Hp.
  { cbn [fst snd]. split; [| reflexivity]. split.
    - intros _. right. apply existsb_exists. exists x.
      apply find_some in Hp. exact Hp.
    - intros _. right. reflexivity. }
  assert (Hnp : existsb (pending_from_to a b) (friend_requests d) = false).
  { apply existsb_false_intro. intros y Hy. exact (find_none _ _ Hp y Hy). }
  rewrite Hnrel, Hnp.
  assert (Hno : forall x : DB * result,
             code_of (snd x) <> 400 -> 
             (is_conflict (snd x) <-> false = true \/ false = true)
             /\ (is_conflict (snd x) -> fst x = d)).
  { intros x Hx.
    assert (Hc : ~ is_conflict (snd x)).
    { intros [H | H]; rewrite H in Hx; apply Hx; reflexivity. }
    split; [| tauto]. split; [tauto |]. intros [H | H]; discriminate. }
  apply Hno.
  destruct (find (pending_from_to b a) (friend_requests d)).
  - destruct (insert_relation _ _ b a); [| simpl; lia].
    destruct (insert_relation _ _ a b); [| simpl; lia].
    destruct (insert_notification _ _); simpl; lia.
  - destruct (insert_notification _ _); simpl; lia.
Qed.

End ConflictProperties.

(** ** Instances on the sample states *)

(** Room 9 and Room 4 are connected by a Relation row whose status is
    'pending'; no accepted Relation connects them and Alice has no pending
    request to Room 4.  Her request is nevertheless answered with the
    Conflict "Already friends": the check of the handler does not look at
    the status of the row. *)
Lemma send_friend_request_refuses_on_pending_relation :
  existsb (accepted_relation_between 1 2) (relations db_pending_relation) = false
  /\ existsb (pending_from_to 1 2) (friend_requests db_pending_relation) = false
  /\ send_friend_request "accepted" db_pending_relation 1
       (Some (FriendRequestData.mk (Some 2)))
     = (db_pending_relation, Return (msg_body "Already friends") 400).
Proof. repeat split; vm_compute; reflexivity. Qed.


(** Alice is registered; a second registration of her email with the
    password "weak" is answered with the 400 of the password check, not with
    409. *)
Lemma register_duplicate_email_weak_password :
  (exists a, In a (accounts db0) /\ Account.email a = "alice@example.com")
  /\ register sample_hash db0
       (Some (RegisterData.mk (Some "alice@example.com")
                              (Some (codepoints "weak")) None))
     = (db0, Return (msg_body weak_password_msg) 400)
  /\ code_of (snd (register sample_hash db0
       (Some (RegisterData.mk (Some "alice@example.com")
                              (Some (codepoints "weak")) None)))) <> 409.
Proof.
  split; [exists alice; split; [left |]; reflexivity |].
  split; [vm_compute; reflexivity |].
  vm_compute. intros H. discriminate H.
Qed.

Lemma register_duplicate_email_witness :
  "alice@example.com" <> ""
  /\ (exists a, In a (accounts db0) /\ Account.email a = "alice@example.com")
  /\ fst (register sample_hash db0
            (Some (RegisterData.mk (Some "alice@example.com")
                                   (Some (codepoints "Str0ng!Pass")) None)))
     = db0.
Proof.
  assert (He : "alice@example.com" <> "") by discriminate.
  assert (Hex : exists a, In a (accounts db0)
                          /\ Account.email a = "alice@example.com")
    by (exists alice; split; [left |]; reflexivity).
  split; [exact He |]. split; [exact Hex |].
  apply (register_duplicate_email sample_hash db0 "alice@example.com"
           (codepoints "Str0ng!Pass") None He Hex).
Defined.

Lemma likes_counter_tracks_like_set_witness :
  likes_invariant db_posted
  /\ likes_invariant (fst (like_post db_posted 1 1))
  /\ likes_invariant (fst (unlike_post db_posted 2 1)).
Proof.
  assert (H : likes_invariant db_posted).
  { intros p [Hp | []]. subst p. split; simpl.
    - constructor; [intros [] | constructor].
    - reflexivity. }
  split; [exact H |]. split.
  - apply (likes_counter_tracks_like_set db_posted 1 1 H).
  - apply (likes_counter_tracks_like_set db_posted 2 1 H).
Defined.

Lemma like_unlike_toggle_witness :
  query_get Account.id (accounts db_posted) 2 = Some bob
  /\ query_get Post.id (posts db_posted) 1 = Some (Post.mk 1 1 "Hello" 1 0 [2])
  /\ NoDup [2]
  /\ (0 <= 1)%Z
  /\ like_post db_posted 2 1
     = (db_posted, Return (likes_body "Already liked" 1) 200).
Proof.
  assert (Hnd : NoDup [2]) by (constructor; [intros [] | constructor]).
  assert (Hpos : (0 <= 1)%Z) by lia.
  split; [reflexivity |]. split; [reflexivity |].
  split; [exact Hnd |]. split; [exact Hpos |].
  apply (like_unlike_toggle db_posted 2 1 bob (Post.mk 1 1 "Hello" 1 0 [2])
           eq_refl eq_refl Hnd Hpos).
  reflexivity.
Defined.



(** ** Meeting invitations *)



Section WebexProperties.

Variable fromisoformat : string -> option Z.
Variable isoformat : Z -> string.
Variable py_int : string -> option Z.
Variable refresh_access_token : option string -> call TokenData.t.
Variable create_meeting : option string -> string -> Z -> Z -> call WebexMeeting.t.

Lemma meeting_window_one_supplied (now : Z) (s e : option string) :
  one_supplied s e ->
  meeting_window fromisoformat now s e = Some (now, (now + 3600)%Z).
Proof.
  unfold one_supplied, meeting_window. intros H.
  destruct (truthy_str s), (truthy_str e); try discriminate; reflexivity.
Qed.

(** C10: when the request passes the checks on the caller and on
    [classroom_id], and exactly one of [start_time] and [end_time] is
    supplied, the handler persists one pending invitation from the caller's
    profile to the receiver whose window is [now, now + 1 hour]; the answer
    and the state are the ones of the same request with neither time
    supplied. *)
Theorem create_invitation_one_sided_window
        (d : DB) (now : Z) (current_user_id : nat) (data : MeetingData.t)
        (account : Account.t) (creator receiver : Profile.t)
        (c : classroom_ref) (z : Z) :
  query_get Account.id (accounts d) current_user_id = Some account ->
  first_profile d account = Some creator ->
  MeetingData.classroom_id data = Some c ->
  classroom_ref_falsy c = false ->
  is_dummy c = false ->
  classroom_ref_int py_int c = Some z ->
  profile_get d z = Some receiver ->
  Profile.id creator <> Profile.id receiver ->
  one_supplied (MeetingData.start_time data) (MeetingData.end_time data) ->
  (exists inv body,
     create_webex_meeting fromisoformat isoformat py_int d now current_user_id data
     = (set_meeting_invitations d (meeting_invitations d ++ [inv]),
        Return body 201)
     /\ MeetingInvitation.start_time inv = now
     /\ MeetingInvitation.end_time inv = (now + 3600)%Z
     /\ MeetingInvitation.status inv = "pending"
     /\ MeetingInvitation.sender_profile_id inv = Profile.id creator
     /\ MeetingInvitation.receiver_profile_id inv = Profile.id receiver)
  /\ create_webex_meeting fromisoformat isoformat py_int d now current_user_id data
     = create_webex_meeting fromisoformat isoformat py_int d now current_user_id
         (MeetingData.mk (MeetingData.title data) None None
                         (MeetingData.classroom_id data)).
Proof.
  intros Hacc Hc Hcid Hf Hd Hint Hrecv Hne Hone.
  assert (Hneq : Nat.eqb (Profile.id creator) (Profile.id receiver) = false)
    by (apply Nat.eqb_neq; exact Hne).
  unfold create_webex_meeting.
  cbn [MeetingData.classroom_id MeetingData.start_time MeetingData.end_time
       MeetingData.title].
  rewrite Hacc, Hc, Hcid, Hf, Hd, Hint, Hrecv, Hneq.
  rewrite (meeting_window_one_supplied now _ _ Hone).
  split.
  - do 2 eexists. split; [reflexivity |]. simpl. repeat split.
  - reflexivity.
Qed.

Lemma refresh_if_expired_tables (d d1 : DB) (now : Z) (sa sa' : Account.t) :
  refresh_if_expired refresh_access_token d now sa = Some (d1, sa') ->
  meeting_invitations d1 = meeting_invitations d
  /\ meetings d1 = meetings d
  /\ profiles d1 = profiles d.
Proof.
  unfold refresh_if_expired.
  destruct (Account.webex_token_expires_at sa) as [e |].
  - destruct (e <? now)%Z.
    + destruct (refresh_access_token (Account.webex_refresh_token sa));
        [| discriminate].
      intros H. inversion H. subst. simpl. auto.
    + intros H. inversion H. subst. auto.
  - intros H. inversion H. subst. auto.
Qed.


(** Every answer of accept other than the 201 leaves the invitations and
    the meetings as they were. *)
Lemma accept_invitation_writes_on_success_only
      (d : DB) (now : Z) (current_user_id invitation_id : nat) :
  let r := accept_invitation isoformat refresh_access_token create_meeting d now
    current_user_id invitation_id in
  code_of (snd r) <> 201 ->
  meeting_invitations (fst r) = meeting_invitations d
  /\ meetings (fst r) = meetings d.
Proof.
  unfold accept_invitation.
  destruct (query_get Account.id (accounts d) current_user_id) as [account |];
    [| cbn; auto].
  destruct (first_profile d account) as [p |]; [| cbn; auto].
  destruct (query_get MeetingInvitation.id (meeting_invitations d) invitation_id)
    as [inv |]; [| cbn; auto].
  destruct (negb (Nat.eqb _ _)); [cbn; auto |].
  destruct (negb (String.eqb _ _)); [cbn; auto |].
  destruct (query_get Profile.id (profiles d) _) as [sender |]; [| cbn; auto].
  destruct (query_get Account.id (accounts d) (Profile.account_id sender))
    as [sender_account |]; [| cbn; auto].
  destruct (negb (truthy_str _)); [cbn; auto |].
  destruct (refresh_if_expired refresh_access_token d now sender_account)
    as [[d1 sa] |] eqn:Href; [| cbn; auto].
  destruct (refresh_if_expired_tables _ _ _ _ _ Href) as [Hi [Hm _]].
  destruct (create_meeting _ _ _ _); cbn [fst snd code_of]; [| auto].
  intros H. exfalso. apply H. reflexivity.
Qed.

(** C2: for a pending invitation addressed to the caller's profile, when
    accept fails because the sender's account holds no token (403),
    because the refresh of the expired token raises (403), or because
    [create_meeting] raises (500), the invitation is still the pending
    row it was and the meetings table has no new row. *)
Theorem accept_failure_keeps_pending
        (d : DB) (now : Z) (current_user_id invitation_id : nat)
        (account : Account.t) (p : Profile.t) (inv : MeetingInvitation.t)
        (sender : Profile.t) (sender_account : Account.t) :
  query_get Account.id (accounts d) current_user_id = Some account ->
  first_profile d account = Some p ->
  query_get MeetingInvitation.id (meeting_invitations d) invitation_id = Some inv ->
  MeetingInvitation.receiver_profile_id inv = Profile.id p ->
  MeetingInvitation.status inv = "pending" ->
  query_get Profile.id (profiles d) (MeetingInvitation.sender_profile_id inv)
  = Some sender ->
  query_get Account.id (accounts d) (Profile.account_id sender)
  = Some sender_account ->
  let r := accept_invitation isoformat refresh_access_token create_meeting d now
    current_user_id invitation_id in
  let kept :=
    query_get MeetingInvitation.id (meeting_invitations (fst r)) invitation_id
    = Some inv
    /\ meetings (fst r) = meetings d in
  (truthy_str (Account.webex_access_token sender_account) = false ->
     snd r = Return (msg_body "The meeting organizer's WebEx account is not connected") 403
     /\ kept)
  /\ (truthy_str (Account.webex_access_token sender_account) = true ->
      forall expires_at e,
        Account.webex_token_expires_at sender_account = Some expires_at ->
        (expires_at < now)%Z ->
        refresh_access_token (Account.webex_refresh_token sender_account)
        = Raises e ->
        snd r = Return (msg_body "Failed to refresh organizer's WebEx session. Please try again later.") 403
        /\ kept)
  /\ (truthy_str (Account.webex_access_token sender_account) = true ->
      forall d1 sa e,
        refresh_if_expired refresh_access_token d now sender_account = Some (d1, sa) ->
        create_meeting (Account.webex_access_token sa)
                       (MeetingInvitation.title inv)
                       (MeetingInvitation.start_time inv)
                       (MeetingInvitation.end_time inv) = Raises e ->
        snd r = Return (msg_body ("Failed to create WebEx meeting: " ++ e)%string) 500
        /\ kept).
Proof.
  intros Hacc Hp Hinv Hrecv Hst Hsender Hsacc r kept. subst kept r.
  unfold accept_invitation.
  rewrite Hacc, Hp, Hinv, Hrecv, Nat.eqb_refl, Hst, Hsender, Hsacc.
  rewrite String.eqb_refl. cbn [negb].
  split; [| split].
  - intros Ht. rewrite Ht. cbn [negb fst snd]. auto.
  - intros Ht expires_at e He Hlt Hraise. rewrite Ht. cbn [negb].
    unfold refresh_if_expired. rewrite He.
    replace (expires_at <? now)%Z with true by (symmetry; apply Z.ltb_lt; exact Hlt).
    rewrite Hraise. cbn [fst snd]. auto.
  - intros Ht d1 sa e Href Hraise. rewrite Ht. cbn [negb].
    rewrite Href, Hraise. cbn [fst snd].
    destruct (refresh_if_expired_tables _ _ _ _ _ Href) as [Hi [Hm _]].
    rewrite Hi, Hm. auto.
Qed.

(** What a successful accept writes: one new [Meeting] row, created by the
    sender's profile with the receiver's profile as its participant, and
    the invitation marked accepted, its [meeting_id] being the [id] the
    new [Meeting] object had before the commit, that is, [None]. *)
Lemma accept_invitation_success
      (d : DB) (now : Z) (current_user_id invitation_id : nat)
      (account : Account.t) (p : Profile.t) (inv : MeetingInvitation.t)
      (sender : Profile.t) (sender_account : Account.t)
      (d1 : DB) (sa : Account.t) (wm : WebexMeeting.t) :
  query_get Account.id (accounts d) current_user_id = Some account ->
  first_profile d account = Some p ->
  query_get MeetingInvitation.id (meeting_invitations d) invitation_id = Some inv ->
  MeetingInvitation.receiver_profile_id inv = Profile.id p ->
  MeetingInvitation.status inv = "pending" ->
  query_get Profile.id (profiles d) (MeetingInvitation.sender_profile_id inv)
  = Some sender ->
  query_get Account.id (accounts d) (Profile.account_id sender)
  = Some sender_account ->
  truthy_str (Account.webex_access_token sender_account) = true ->
  refresh_if_expired refresh_access_token d now sender_account = Some (d1, sa) ->
  create_meeting (Account.webex_access_token sa)
                 (MeetingInvitation.title inv)
                 (MeetingInvitation.start_time inv)
                 (MeetingInvitation.end_time inv) = Ok wm ->
  exists d' body m,
    accept_invitation isoformat refresh_access_token create_meeting d now
    current_user_id invitation_id = (d', Return body 201)
    /\ meetings d' = meetings d ++ [m]
    /\ Meeting.id m = Some (next_id Meeting_key (meetings d))
    /\ Meeting.creator_id m = MeetingInvitation.sender_profile_id inv
    /\ Meeting.participants m = [Profile.id p]
    /\ query_get MeetingInvitation.id (meeting_invitations d') invitation_id
       = Some (MeetingInvitation_set_meeting_id None
                 (MeetingInvitation_set_status "accepted" inv)).
Proof.
  intros Hacc Hp Hinv Hrecv Hst Hsender Hsacc Ht Href Hok.
  unfold accept_invitation.
  rewrite Hacc, Hp, Hinv, Hrecv, Nat.eqb_refl, Hst, Hsender, Hsacc, Ht.
  rewrite String.eqb_refl. cbn [negb].
  rewrite Href, Hok.
  destruct (refresh_if_expired_tables _ _ _ _ _ Href) as [Hi [Hm _]].
  do 3 eexists. split; [reflexivity |].
  cbn [meetings set_meetings set_meeting_invitations meeting_invitations].
  rewrite Hm, Hi.
  split; [reflexivity |]. split; [reflexivity |].
  split; [reflexivity |]. split; [reflexivity |].
  pose proof (query_get_In _ _ _ _ Hinv) as [_ Hid].
  cbn [MeetingInvitation.id MeetingInvitation_set_meeting_id
       MeetingInvitation_set_status Meeting.id Meeting_append_participant].
  rewrite Hid.
  apply (query_get_update_row MeetingInvitation.id invitation_id
           (fun _ => _) (meeting_invitations d) inv); [| exact Hinv].
  reflexivity.
Qed.

End WebexProperties.

(** ** Instances on the sample states: meeting invitations *)



Lemma accept_failure_keeps_pending_witness :
  query_get Account.id (accounts db_invited) 2 = Some bob
  /\ first_profile db_invited bob = Some room4
  /\ query_get MeetingInvitation.id (meeting_invitations db_invited) 1
     = Some (MeetingInvitation.mk 1 1 2 "Pen pal call" 100 200 "pending" None)
  /\ query_get Profile.id (profiles db_invited) 1 = Some room9
  /\ query_get Account.id (accounts db_invited) 1 = Some alice
  /\ snd (accept_invitation sample_isoformat refresh_raises create_meeting_raises
                            db_invited 1000 2 1)
     = Return (msg_body "Failed to create WebEx meeting: 503 Service Unavailable") 500
  /\ query_get MeetingInvitation.id
       (meeting_invitations
          (fst (accept_invitation sample_isoformat refresh_raises
                                  create_meeting_raises db_invited 1000 2 1))) 1
     = Some (MeetingInvitation.mk 1 1 2 "Pen pal call" 100 200 "pending" None)
  /\ meetings (fst (accept_invitation sample_isoformat refresh_raises
                                      create_meeting_raises db_invited 1000 2 1))
     = [].
Proof.
  do 5 (split; [reflexivity |]).
  destruct (accept_failure_keeps_pending sample_isoformat refresh_raises
              create_meeting_raises db_invited 1000 2 1 bob room4
              (MeetingInvitation.mk 1 1 2 "Pen pal call" 100 200 "pending" None)
              room9 alice eq_refl eq_refl eq_refl eq_refl eq_refl eq_refl eq_refl)
    as [_ [_ H]].
  exact (H eq_refl db_invited alice "503 Service Unavailable" eq_refl eq_refl).
Defined.

(** C3: Bob accepts Alice's pending invitation and [create_meeting]
    succeeds.  One Meeting row is created, by Room 9 with Room 4 as its
    participant, and the invitation is accepted; but its [meeting_id] is
    still [None], not the key of the new row: line 419 reads
    [new_meeting.id] before the commit has assigned it. *)
Theorem accept_invitation_meeting_id_unset :
  let r := accept_invitation sample_isoformat refresh_raises create_meeting_ok
                             db_invited 1000 2 1 in
  code_of (snd r) = 201
  /\ meetings (fst r)
     = [Meeting.mk (Some 1) (Some "wbx-1") "Pen pal call" 100 200
                   (Some "https://meet.webex.com/wbx-1") (Some "pw1") 1 [2]]
  /\ query_get MeetingInvitation.id (meeting_invitations (fst r)) 1
     = Some (MeetingInvitation.mk 1 1 2 "Pen pal call" 100 200 "accepted" None).
Proof. repeat split; vm_compute; reflexivity. Qed.

Lemma create_invitation_one_sided_window_witness :
  query_get Account.id (accounts db0) 1 = Some alice
  /\ first_profile db0 alice = Some room9
  /\ profile_get db0 2 = Some room4
  /\ one_supplied (Some "2030-01-01T10:00:00Z") None
  /\ exists body,
       create_webex_meeting sample_fromisoformat sample_isoformat sample_py_int
         db0 1000 1
         (MeetingData.mk (Some "Math club") (Some "2030-01-01T10:00:00Z") None
                         (Some (CInt 2)))
       = (set_meeting_invitations db0
            [MeetingInvitation.mk 1 1 2 "Math club" 1000 4600 "pending" None],
          Return body 201).
Proof.
  do 4 (split; [reflexivity |]).
  assert (Hne : Profile.id room9 <> Profile.id room4) by (simpl; discriminate).
  destruct (create_invitation_one_sided_window
              sample_fromisoformat sample_isoformat sample_py_int
              db0 1000 1
              (MeetingData.mk (Some "Math club") (Some "2030-01-01T10:00:00Z")
                              None (Some (CInt 2)))
              alice room9 room4 (CInt 2) 2
              eq_refl eq_refl eq_refl eq_refl eq_refl eq_refl eq_refl
              Hne eq_refl) as [[inv [body [Heq _]]] _].
  exists body. rewrite Heq. vm_compute in Heq.
  inversion Heq. reflexivity.
Defined.

Lemma send_friend_request_conflict_iff_witness :
  query_get Account.id (accounts db_pending_relation) 1 = Some alice
  /\ first_profile db_pending_relation alice = Some room9
  /\ query_get Profile.id (profiles db_pending_relation) 2 = Some room4
  /\ (is_conflict
        (snd (send_friend_request "accepted" db_pending_relation 1
                (Some (FriendRequestData.mk (Some 2))))) <->
      existsb (relation_between 1 2) (relations db_pending_relation) = true
      \/ existsb (pending_from_to 1 2) (friend_requests db_pending_relation)
         = true).
Proof.
  do 3 (split; [reflexivity |]).
  assert (H0 : Profile.id room4 <> 0) by (simpl; discriminate).
  assert (Hne : Profile.id room9 <> Profile.id room4) by (simpl; discriminate).
  apply (send_friend_request_conflict_iff "accepted" db_pending_relation 1
           alice room9 room4 eq_refl eq_refl eq_refl H0 Hne).
Defined.

(** * Further properties of the handlers *)

(** ** Lists and tables *)

Lemma NoDup_snoc_any {A : Type} (x : A) (l : list A) :
  NoDup l -> ~ In x l -> NoDup (l ++ [x]).
Proof.
  intros Hnd Hx. induction Hnd as [| z l Hz Hnd IH]; simpl.
  - constructor; [auto | constructor].
  - constructor.
    + rewrite in_app_iff. simpl. intros [H | [H | []]]; [auto |].
      subst. apply Hx. left. reflexivity.
    + apply IH. intros H. apply Hx. right. exact H.
Qed.

Lemma find_app_none {A : Type} (f : A -> bool) (l l' : list A) :
  find f l = None -> find f (l ++ l') = find f l'.
Proof.
  induction l as [| x l IH]; simpl; [reflexivity |].
  destruct (f x); [discriminate | exact IH].
Qed.

Lemma find_app_some {A : Type} (f : A -> bool) (l l' : list A) (x : A) :
  find f l = Some x -> find f (l ++ l') = Some x.
Proof.
  induction l as [| y l IH]; simpl; [discriminate |].
  destruct (f y); [auto | exact IH].
Qed.

Lemma fold_max_ge (l : list nat) (x : nat) :
  In x l -> x <= fold_right Nat.max 0 l.
Proof.
  induction l as [| y l IH]; simpl; [contradiction |].
  intros [H | H]; [subst; lia |]. specialize (IH H). lia.
Qed.

Lemma next_id_gt {A : Type} (id : A -> nat) (tbl : list A) (x : A) :
  In x tbl -> id x < next_id id tbl.
Proof.
  intros H. unfold next_id.
  assert (id x <= fold_right Nat.max 0 (map id tbl))
    by (apply fold_max_ge, in_map; exact H).
  lia.
Qed.

Lemma next_id_fresh {A : Type} (id : A -> nat) (tbl : list A) :
  ~ In (next_id id tbl) (map id tbl).
Proof.
  intros H. apply in_map_iff in H. destruct H as [x [Heq Hin]].
  pose proof (next_id_gt id tbl x Hin). lia.
Qed.

Lemma query_get_fresh {A : Type} (id : A -> nat) (tbl : list A) :
  query_get id tbl (next_id id tbl) = None.
Proof.
  unfold query_get. apply find_none_intro. intros x Hin.
  apply Nat.eqb_neq. pose proof (next_id_gt id tbl x Hin). lia.
Qed.

(** ** Registration and login *)

Section AccountProperties.

Variable generate_password_hash : list N -> string.
Variable check_password_hash : string -> list N -> bool.
Variable create_access_token : string -> string.

(** What [register] does to the accounts table: nothing, or one new row
    whose key is the next one and whose email no row had. *)
Lemma register_accounts (d : DB) (data : option RegisterData.t) :
  accounts (fst (register generate_password_hash d data)) = accounts d
  \/ exists a,
       accounts (fst (register generate_password_hash d data)) = accounts d ++ [a]
       /\ Account.id a = next_id Account.id (accounts d)
       /\ ~ In (Account.email a) (map Account.email (accounts d)).
Proof.
  unfold register. destruct data as [data |]; [| left; reflexivity].
  destruct (RegisterData.email data) as [email |]; [| left; reflexivity].
  destruct (RegisterData.password data) as [password |]; [| left; reflexivity].
  destruct (String.eqb email "" || Nat.eqb (List.length password) 0);
    [left; reflexivity |].
  destruct (negb (password_valid password)); [left; reflexivity |].
  destruct (find _ (accounts d)) eqn:Hf; [left; reflexivity |].
  right. eexists. split; [reflexivity |]. split; [reflexivity |].
  simpl. intros Hin. apply in_map_iff in Hin. destruct Hin as [x [Heq Hx]].
  pose proof (find_none _ _ Hf x Hx) as H. simpl in H.
  rewrite Heq, String.eqb_refl in H. discriminate.
Qed.

(** X1: [register] keeps the accounts table well formed: if no two accounts
    share a key or an email before the call, none do after it, whatever the
    request. *)
Theorem register_keeps_accounts_wf (d : DB) (data : option RegisterData.t) :
  accounts_wf d ->
  accounts_wf (fst (register generate_password_hash d data)).
Proof.
  intros [Hid Hem]. unfold accounts_wf.
  destruct (register_accounts d data) as [H | [a [H [Ha He]]]]; rewrite H.
  - auto.
  - rewrite !map_app. simpl. split.
    + apply NoDup_snoc_any; [exact Hid |]. rewrite Ha. apply next_id_fresh.
    + apply NoDup_snoc_any; assumption.
Qed.

(** X2: an account registered with a conforming password and a new email
    can log in at once with the same credentials, provided the hash the
    account stores verifies against the password: the answer is 200 with a
    token for the new account's key. *)
Theorem register_then_login
        (d : DB) (email : string) (pw : list N) (org : option string) :
  email <> "" ->
  meets_policy pw ->
  ~ In email (map Account.email (accounts d)) ->
  check_password_hash (generate_password_hash pw) pw = true ->
  let d' := fst (register generate_password_hash d
                   (Some (RegisterData.mk (Some email) (Some pw) org))) in
  login check_password_hash create_access_token d'
        (Some (LoginData.mk (Some email) (Some pw)))
  = Return (JDict [("access_token",
                    JStr (create_access_token (str (next_id Account.id (accounts d)))));
                   ("account_id", JInt (Z.of_nat (next_id Account.id (accounts d))))])
           200.
Proof.
  intros He Hp Hnew Hchk d'. subst d'.
  assert (Hf : find (fun a => String.eqb (Account.email a) email) (accounts d) = None).
  { apply find_none_intro. intros x Hx. apply String.eqb_neq. intros Heq.
    apply Hnew. apply in_map_iff. exists x. auto. }
  apply password_valid_iff in Hp.
  rewrite (register_strong generate_password_hash d email pw org He Hp), Hf.
  unfold login. cbn [fst accounts set_accounts LoginData.email LoginData.password].
  apply String.eqb_neq in He. rewrite He.
  assert (Hlen : Nat.eqb (List.length pw) 0 = false).
  { apply password_valid_iff in Hp. destruct Hp as [Hl _].
    apply Nat.eqb_neq. lia. }
  rewrite Hlen. cbn [orb].
  rewrite (find_app_none _ _ _ Hf). cbn [find Account.email].
  rewrite String.eqb_refl. cbn [Account.password_hash Account.id].
  rewrite Hchk. reflexivity.
Qed.


End AccountProperties.

(** ** Posts: composing like and unlike *)

Lemma query_get_update_row_any {A : Type} (id : A -> nat) (i j : nat)
      (f : A -> A) (tbl : list A) :
  (forall r, id (f r) = id r) ->
  query_get id (update_row id i f tbl) j
  = option_map (fun r => if Nat.eqb (id r) i then f r else r) (query_get id tbl j).
Proof.
  intros Hid. unfold query_get, update_row.
  induction tbl as [| x tbl IH]; simpl; [reflexivity |].
  destruct (Nat.eqb (id x) i) eqn:E.
  - rewrite Hid. destruct (Nat.eqb (id x) j); [simpl; rewrite E; reflexivity | exact IH].
  - destruct (Nat.eqb (id x) j); [simpl; rewrite E; reflexivity | exact IH].
Qed.

Lemma query_get_update_row_other {A : Type} (id : A -> nat) (i j : nat)
      (f : A -> A) (tbl : list A) :
  (forall r, id (f r) = id r) ->
  j <> i ->
  query_get id (update_row id i f tbl) j = query_get id tbl j.
Proof.
  intros Hid Hne. rewrite query_get_update_row_any by exact Hid.
  destruct (query_get id tbl j) as [r |] eqn:Hq; [| reflexivity].
  apply query_get_In in Hq. destruct Hq as [_ Hr]. simpl.
  replace (Nat.eqb (id r) i) with false; [reflexivity |].
  symmetry. apply Nat.eqb_neq. congruence.
Qed.

Lemma list_remove_snoc (x : nat) (l : list nat) :
  ~ In x l -> list_remove x (l ++ [x]) = l.
Proof.
  induction l as [| y l IH]; simpl; intros Hx.
  - rewrite Nat.eqb_refl. reflexivity.
  - replace (Nat.eqb y x) with false
      by (symmetry; apply Nat.eqb_neq; intros E; apply Hx; left; exact E).
    rewrite IH; [reflexivity |]. intros H. apply Hx. right. exact H.
Qed.

Lemma Post_set_likes_same (p : Post.t) :
  Post_set_likes (Post.liked_by p) (Post.likes p) p = p.
Proof. destruct p. reflexivity. Qed.

(** X4: for an account that does not yet like a post whose counter is not
    negative, a like followed by an unlike gives the post back as it was,
    like-set and counter, and the unlike reports the original count. *)
Theorem like_then_unlike_restores
        (d : DB) (current_user_id post_id : nat) (a : Account.t) (p : Post.t) :
  query_get Account.id (accounts d) current_user_id = Some a ->
  query_get Post.id (posts d) post_id = Some p ->
  mem (Account.id a) (Post.liked_by p) = false ->
  (0 <= Post.likes p)%Z ->
  let d1 := fst (like_post d current_user_id post_id) in
  query_get Post.id (posts (fst (unlike_post d1 current_user_id post_id))) post_id
  = Some p
  /\ snd (unlike_post d1 current_user_id post_id)
     = Return (likes_body "Post unliked" (Post.likes p)) 200.
Proof.
  intros Ha Hp Hm Hpos d1.
  pose proof (query_get_In _ _ _ _ Hp) as [_ Hid].
  assert (Hp1 : query_get Post.id (posts d1) post_id
                = Some (Post_set_likes (Post.liked_by p ++ [Account.id a])
                                       (Post.likes p + 1)%Z p)).
  { subst d1. unfold like_post. rewrite Ha, Hp, Hm. cbn [fst posts set_posts].
    rewrite Hid. apply query_get_update_row; [reflexivity | exact Hp]. }
  assert (Ha1 : query_get Account.id (accounts d1) current_user_id = Some a).
  { subst d1. unfold like_post. rewrite Ha, Hp, Hm. exact Ha. }
  unfold unlike_post. rewrite Ha1, Hp1.
  cbn [Post.liked_by Post.likes Post.id Post_set_likes].
  assert (Hin : mem (Account.id a) (Post.liked_by p ++ [Account.id a]) = true).
  { apply mem_true_iff, in_app_iff. right. left. reflexivity. }
  rewrite Hin. cbn [negb fst snd posts set_posts].
  apply mem_false_iff in Hm. rewrite (list_remove_snoc _ _ Hm).
  replace (Post.likes p + 1 >? 0)%Z with true by (symmetry; apply Z.gtb_lt; lia).
  replace (Post.likes p + 1 - 1)%Z with (Post.likes p) by lia.
  split; [| reflexivity].
  rewrite Hid.
  match goal with
  | |- context [update_row Post.id post_id ?f (posts d1)] =>
      rewrite (query_get_update_row_any Post.id post_id post_id f (posts d1)
                 (fun r => eq_refl)), Hp1
  end.
  cbn [option_map Post_set_likes Post.id Post.profile_id Post.content
       Post.comments_count].
  rewrite Hid, Nat.eqb_refl.
  destruct p. reflexivity.
Qed.

(** X5: [like_post] and [unlike_post] write to one post only: every other
    post is found as before, and the accounts, profiles and notifications
    are untouched. *)
Theorem like_unlike_frame (d : DB) (current_user_id post_id other : nat) :
  other <> post_id ->
  let dl := fst (like_post d current_user_id post_id) in
  let du := fst (unlike_post d current_user_id post_id) in
  query_get Post.id (posts dl) other = query_get Post.id (posts d) other
  /\ query_get Post.id (posts du) other = query_get Post.id (posts d) other
  /\ accounts dl = accounts d /\ accounts du = accounts d
  /\ profiles dl = profiles d /\ profiles du = profiles d
  /\ notifications dl = notifications d /\ notifications du = notifications d.
Proof.
  intros Hne dl du. subst dl du. unfold like_post, unlike_post.
  destruct (query_get Account.id (accounts d) current_user_id) as [a |];
    [| cbn; intuition].
  destruct (query_get Post.id (posts d) post_id) as [p |] eqn:Hp;
    [| cbn; intuition].
  pose proof (query_get_In _ _ _ _ Hp) as [_ Hid].
  assert (Hother : forall l n,
             query_get Post.id
               (update_row Post.id post_id (Post_set_likes l n) (posts d)) other
             = query_get Post.id (posts d) other).
  { intros l n. apply query_get_update_row_other; [reflexivity | exact Hne]. }
  destruct (mem (Account.id a) (Post.liked_by p));
    cbn [negb fst posts set_posts accounts profiles notifications];
    rewrite ?Hid, ?Hother; repeat split; reflexivity.
Qed.

(** X6: liking is idempotent: a second [like_post] by the same account on
    the same post leaves the database as the first one left it, whatever the
    account and the post. *)
Theorem like_post_idempotent (d : DB) (current_user_id post_id : nat) :
  fst (like_post (fst (like_post d current_user_id post_id)) current_user_id post_id)
  = fst (like_post d current_user_id post_id).
Proof.
  unfold like_post at 2 3.
  destruct (query_get Account.id (accounts d) current_user_id) as [a |] eqn:Ha.
  2: { cbn [fst]. unfold like_post. rewrite Ha. reflexivity. }
  destruct (query_get Post.id (posts d) post_id) as [p |] eqn:Hp.
  2: { cbn [fst]. unfold like_post. rewrite Ha, Hp. reflexivity. }
  destruct (mem (Account.id a) (Post.liked_by p)) eqn:Hm.
  - cbn [fst]. unfold like_post. rewrite Ha, Hp, Hm. reflexivity.
  - cbn [fst]. pose proof (query_get_In _ _ _ _ Hp) as [_ Hid].
    unfold like_post. cbn [accounts posts set_posts]. rewrite Ha, Hid.
    match goal with
    | |- context [update_row Post.id post_id ?f (posts d)] =>
        rewrite (query_get_update_row Post.id post_id f (posts d) p eq_refl Hp)
    end.
    cbn [Post.liked_by Post_set_likes].
    replace (mem (Account.id a) (Post.liked_by p ++ [Account.id a])) with true;
      [reflexivity |].
    symmetry. apply mem_true_iff, in_app_iff. right. left. reflexivity.
Qed.

(** ** Friend requests: what the handler writes *)

Lemma existsb_false_elim {A : Type} (f : A -> bool) (l : list A) :
  existsb f l = false -> forall x, In x l -> f x = false.
Proof.
  intros H x Hin. destruct (f x) eqn:E; [| reflexivity].
  assert (existsb f l = true) by (apply existsb_exists; eauto). congruence.
Qed.

Lemma relation_from_to_mirror (a b n : nat) (st : string) :
  a <> b -> relation_from_to a b (Relation.mk n b a st) = false.
Proof.
  intros Hne. unfold relation_from_to. simpl.
  replace (Nat.eqb b a) with false; [reflexivity |].
  symmetry. apply Nat.eqb_neq. auto.
Qed.

Section FriendWrites.

Variable Relation_status_default : string.

(** The relations table after [send_friend_request]: as before, or with the
    two mirrored rows of the mutual shortcut appended, for a pair of distinct
    profiles that no row connected. *)
Lemma send_friend_request_relations
      (d : DB) (current_user_id : nat) (data : option FriendRequestData.t) :
  let d' := fst (send_friend_request Relation_status_default d current_user_id data) in
  relations d' = relations d
  \/ exists s t,
       s <> t
       /\ (forall x, In x (relations d) -> relation_from_to t s x = false)
       /\ (forall x, In x (relations d) -> relation_from_to s t x = false)
       /\ relations d'
          = relations d ++
            [Relation.mk (next_id Relation.id (relations d)) t s
                         Relation_status_default;
             Relation.mk (S (next_id Relation.id (relations d))) s t
                         Relation_status_default].
Proof.
  unfold send_friend_request.
  destruct (query_get Account.id (accounts d) current_user_id) as [account |];
    [| left; reflexivity].
  destruct (first_profile d account) as [A |]; [| left; reflexivity].
  destruct data as [data |]; [| left; reflexivity].
  destruct (FriendRequestData.classroomId data) as [b |]; [| left; reflexivity].
  destruct (Nat.eqb b 0); [left; reflexivity |].
  destruct (query_get Profile.id (profiles d) b) as [B |]; [| left; reflexivity].
  destruct (Nat.eqb (Profile.id A) (Profile.id B)) eqn:Hne; [left; reflexivity |].
  apply Nat.eqb_neq in Hne.
  destruct (find (relation_between _ _) (relations d)); [left; reflexivity |].
  destruct (find (pending_from_to (Profile.id A) (Profile.id B)) _);
    [left; reflexivity |].
  destruct (find (pending_from_to (Profile.id B) (Profile.id A)) _) as [rr |].
  - unfold insert_relation. cbn [relations set_friend_requests].
    destruct (existsb (relation_from_to (Profile.id B) (Profile.id A)) (relations d))
      eqn:E1; [left; reflexivity |].
    cbn [relations set_relations].
    rewrite existsb_app.
    destruct (existsb (relation_from_to (Profile.id A) (Profile.id B)) (relations d))
      eqn:E2; [left; reflexivity |].
    cbn [existsb orb].
    rewrite (relation_from_to_mirror _ _ _ Relation_status_default Hne).
    cbn [andb orb insert_notification Notification.message fst relations
         set_notifications set_relations].
    right. exists (Profile.id A), (Profile.id B).
    split; [exact Hne |].
    split; [exact (existsb_false_elim _ _ E1) |].
    split; [exact (existsb_false_elim _ _ E2) |].
    rewrite <- app_assoc. simpl.
    rewrite (next_id_snoc Relation.id (relations d)) by reflexivity.
    reflexivity.
  - cbn [insert_notification Notification.message]. left. reflexivity.
Qed.

(** X7: [send_friend_request] keeps the relations table symmetric: if every
    Relation row has its mirror row with the same status before the call,
    the same holds after it, whatever the request and whatever the status
    default of the model. *)
Theorem send_friend_request_keeps_symmetry
        (d : DB) (current_user_id : nat) (data : option FriendRequestData.t) :
  relations_symmetric d ->
  relations_symmetric
    (fst (send_friend_request Relation_status_default d current_user_id data)).
Proof.
  intros Hsym.
  destruct (send_friend_request_relations d current_user_id data)
    as [H | [s [t [_ [_ [_ H]]]]]]; unfold relations_symmetric; rewrite H.
  - exact Hsym.
  - intros r Hin. apply in_app_iff in Hin. destruct Hin as [Hin | Hin].
    + destruct (Hsym r Hin) as [r' [Hr' Hrest]]. exists r'.
      split; [apply in_app_iff; left; exact Hr' | exact Hrest].
    + destruct Hin as [Hr | [Hr | []]]; subst r.
      * eexists. split; [apply in_app_iff; right; right; left; reflexivity |].
        simpl. auto.
      * eexists. split; [apply in_app_iff; right; left; reflexivity |].
        simpl. auto.
Qed.

(** [send_friend_request] never breaks the unique constraint on the
    ordered pair of a Relation: if no two rows share their pair before the
    call, none do after it. *)
Theorem send_friend_request_keeps_pairs_unique
        (d : DB) (current_user_id : nat) (data : option FriendRequestData.t) :
  relation_pairs_unique d ->
  relation_pairs_unique
    (fst (send_friend_request Relation_status_default d current_user_id data)).
Proof.
  intros Hu.
  destruct (send_friend_request_relations d current_user_id data)
    as [H | [s [t [Hne [Hts [Hst H]]]]]]; unfold relation_pairs_unique; rewrite H.
  - exact Hu.
  - assert (Hnot : forall a b,
               (forall x, In x (relations d) -> relation_from_to a b x = false) ->
               ~ In (a, b)
                    (map (fun r => (Relation.from_profile_id r,
                                    Relation.to_profile_id r)) (relations d))).
    { intros a b Hab Hin. apply in_map_iff in Hin.
      destruct Hin as [x [Heq Hx]]. inversion Heq.
      specialize (Hab x Hx). unfold relation_from_to in Hab.
      rewrite H1, H2, !Nat.eqb_refl in Hab. discriminate. }
    replace (relations d ++
             [Relation.mk (next_id Relation.id (relations d)) t s
                          Relation_status_default;
              Relation.mk (S (next_id Relation.id (relations d))) s t
                          Relation_status_default])
      with ((relations d ++
             [Relation.mk (next_id Relation.id (relations d)) t s
                          Relation_status_default]) ++
            [Relation.mk (S (next_id Relation.id (relations d))) s t
                         Relation_status_default])
      by (rewrite <- app_assoc; reflexivity).
    rewrite !map_app. cbn [map Relation.from_profile_id Relation.to_profile_id].
    apply NoDup_snoc_any.
    + apply NoDup_snoc_any; [exact Hu | apply Hnot; exact Hts].
    + rewrite in_app_iff. intros [Hin | [Heq | []]].
      * exact (Hnot s t Hst Hin).
      * inversion Heq. congruence.
Qed.

(** X8: a first friend request cannot be stored.  When the caller's profile
    A and the existing target B are distinct, no Relation row connects them
    and no request is pending between them in either direction, the handler
    builds the request and a [Notification] whose [message] it never
    assigns; [message] is NOT NULL, so the commit raises [IntegrityError]
    and neither the request nor the notification is persisted. *)
Theorem send_friend_request_first_request_raises
        (d : DB) (current_user_id : nat) (account : Account.t) (A B : Profile.t) :
  query_get Account.id (accounts d) current_user_id = Some account ->
  first_profile d account = Some A ->
  query_get Profile.id (profiles d) (Profile.id B) = Some B ->
  Profile.id B <> 0 ->
  Profile.id A <> Profile.id B ->
  (forall r, In r (relations d) ->
             relation_between (Profile.id A) (Profile.id B) r = false) ->
  (forall q, In q (friend_requests d) ->
             pending_between (Profile.id A) (Profile.id B) q = false) ->
  send_friend_request Relation_status_default d current_user_id
    (Some (FriendRequestData.mk (Some (Profile.id B))))
  = (d, Raise "IntegrityError").
Proof.
  intros Hacc HA HB HB0 Hne Hrel Hpend.
  unfold send_friend_request.
  rewrite Hacc, HA. cbn [FriendRequestData.classroomId].
  replace (Nat.eqb (Profile.id B) 0) with false
    by (symmetry; apply Nat.eqb_neq; exact HB0).
  rewrite HB.
  replace (Nat.eqb (Profile.id A) (Profile.id B)) with false
    by (symmetry; apply Nat.eqb_neq; exact Hne).
  rewrite (find_none_intro _ _ Hrel).
  rewrite (find_none_intro (pending_from_to (Profile.id A) (Profile.id B))
             (friend_requests d)).
  2: { intros q Hq. specialize (Hpend q Hq). unfold pending_between in Hpend.
       apply orb_false_iff in Hpend. tauto. }
  rewrite (find_none_intro (pending_from_to (Profile.id B) (Profile.id A))
             (friend_requests d)).
  2: { intros q Hq. specialize (Hpend q Hq). unfold pending_between in Hpend.
       apply orb_false_iff in Hpend. tauto. }
  reflexivity.
Qed.

(** X9: the mutual shortcut resolves one request only.  When several
    requests from B to A are pending, the request of A to B is answered 200
    and marks the first of them accepted; every other pending request from B
    to A, having another key, is still in the table, still pending. *)
Theorem mutual_shortcut_resolves_first_only
        (d : DB) (current_user_id : nat) (account : Account.t)
        (A B : Profile.t) (rr : FriendRequest.t) :
  query_get Account.id (accounts d) current_user_id = Some account ->
  first_profile d account = Some A ->
  query_get Profile.id (profiles d) (Profile.id B) = Some B ->
  Profile.id B <> 0 ->
  Profile.id A <> Profile.id B ->
  (forall r, In r (relations d) ->
             relation_between (Profile.id A) (Profile.id B) r = false) ->
  (forall q, In q (friend_requests d) ->
             pending_from_to (Profile.id A) (Profile.id B) q = false) ->
  find (pending_from_to (Profile.id B) (Profile.id A)) (friend_requests d) = Some rr ->
  let r := send_friend_request Relation_status_default d current_user_id
             (Some (FriendRequestData.mk (Some (Profile.id B)))) in
  snd r = Return (status_body "Friend request accepted (mutual)" "accepted") 200
  /\ In (FriendRequest_set_status "accepted" rr) (friend_requests (fst r))
  /\ (forall q, In q (friend_requests d) ->
                pending_from_to (Profile.id B) (Profile.id A) q = true ->
                FriendRequest.id q <> FriendRequest.id rr ->
                In q (friend_requests (fst r))).
Proof.
  intros Hacc HA HB HB0 Hne Hrel Hfwd Hrev r. subst r.
  assert (Hex1 : existsb (relation_from_to (Profile.id B) (Profile.id A))
                         (relations d) = false).
  { apply existsb_false_intro. intros x Hx. specialize (Hrel x Hx).
    unfold relation_between in Hrel. apply orb_false_iff in Hrel. tauto. }
  assert (Hex2 : existsb (relation_from_to (Profile.id A) (Profile.id B))
                         (relations d) = false).
  { apply existsb_false_intro. intros x Hx. specialize (Hrel x Hx).
    unfold relation_between in Hrel. apply orb_false_iff in Hrel. tauto. }
  unfold send_friend_request.
  rewrite Hacc, HA. cbn [FriendRequestData.classroomId].
  replace (Nat.eqb (Profile.id B) 0) with false
    by (symmetry; apply Nat.eqb_neq; exact HB0).
  rewrite HB.
  replace (Nat.eqb (Profile.id A) (Profile.id B)) with false
    by (symmetry; apply Nat.eqb_neq; exact Hne).
  rewrite (find_none_intro _ _ Hrel), (find_none_intro _ _ Hfwd), Hrev.
  unfold insert_relation. cbn [relations set_friend_requests].
  rewrite Hex1. cbn [relations set_relations].
  rewrite existsb_app, Hex2. cbn [existsb orb].
  rewrite (relation_from_to_mirror _ _ _ Relation_status_default Hne).
  cbn [andb orb insert_notification Notification.message fst snd
       friend_requests set_notifications set_relations set_friend_requests].
  split; [reflexivity |].
  apply find_some in Hrev. destruct Hrev as [Hin _].
  split.
  - unfold update_row. apply in_map_iff. exists rr.
    rewrite Nat.eqb_refl. auto.
  - intros q Hq _ Hid. unfold update_row. apply in_map_iff. exists q.
    replace (Nat.eqb (FriendRequest.id q) (FriendRequest.id rr)) with false
      by (symmetry; apply Nat.eqb_neq; exact Hid).
    auto.
Qed.

End FriendWrites.

(** ** Meeting invitations: creation *)

Lemma profile_get_id (d : DB) (z : Z) (p : Profile.t) :
  profile_get d z = Some p ->
  query_get Profile.id (profiles d) (Profile.id p) = Some p.
Proof.
  unfold profile_get. destruct (z <? 0)%Z; [discriminate |].
  intros H. pose proof (query_get_In _ _ _ _ H) as [_ Hid].
  rewrite Hid. exact H.
Qed.

Lemma query_get_snoc_new {A : Type} (id : A -> nat) (tbl : list A) (x : A) :
  id x = next_id id tbl ->
  query_get id (tbl ++ [x]) (next_id id tbl) = Some x.
Proof.
  intros Hx. unfold query_get.
  rewrite find_app_none by (apply query_get_fresh).
  simpl. rewrite Hx, Nat.eqb_refl. reflexivity.
Qed.

Section InvitationCreation.

Variable fromisoformat : string -> option Z.
Variable isoformat : Z -> string.
Variable py_int : string -> option Z.

(** The cases of [create_webex_meeting]: a 400 or a 404 that writes
    nothing, or a 201 with one invitation appended. *)
Lemma create_webex_meeting_cases
      (d : DB) (now : Z) (current_user_id : nat) (data : MeetingData.t) :
  let r := create_webex_meeting fromisoformat isoformat py_int d now
             current_user_id data in
  (fst r = d /\ (code_of (snd r) = 400 \/ code_of (snd r) = 404))
  \/ exists inv account sender receiver,
       fst r = set_meeting_invitations d (meeting_invitations d ++ [inv])
       /\ code_of (snd r) = 201
       /\ MeetingInvitation.id inv = next_id MeetingInvitation.id (meeting_invitations d)
       /\ MeetingInvitation.status inv = "pending"
       /\ MeetingInvitation.meeting_id inv = None
       /\ query_get Account.id (accounts d) current_user_id = Some account
       /\ first_profile d account = Some sender
       /\ MeetingInvitation.sender_profile_id inv = Profile.id sender
       /\ query_get Profile.id (profiles d) (MeetingInvitation.receiver_profile_id inv)
          = Some receiver
       /\ MeetingInvitation.sender_profile_id inv
          <> MeetingInvitation.receiver_profile_id inv.
Proof.
  unfold create_webex_meeting.
  destruct (query_get Account.id (accounts d) current_user_id) as [account |]
    eqn:Hacc; [| left; cbn; auto].
  destruct (first_profile d account) as [creator |] eqn:Hcr; [| left; cbn; auto].
  destruct (MeetingData.classroom_id data) as [c |]; [| left; cbn; auto].
  destruct (classroom_ref_falsy c); [left; cbn; auto |].
  destruct (is_dummy c); [left; cbn; auto |].
  destruct (classroom_ref_int py_int c) as [z |]; [| left; cbn; auto].
  destruct (profile_get d z) as [receiver |] eqn:Hr; [| left; cbn; auto].
  destruct (Nat.eqb (Profile.id creator) (Profile.id receiver)) eqn:Hne;
    [left; cbn; auto |].
  destruct (meeting_window fromisoformat now _ _) as [[start_time end_time] |];
    [| left; cbn; auto].
  right. apply Nat.eqb_neq in Hne. apply profile_get_id in Hr.
  eexists. exists account, creator, receiver.
  cbn [fst snd code_of].
  split; [reflexivity |].
  cbn [MeetingInvitation.id MeetingInvitation.status MeetingInvitation.meeting_id
       MeetingInvitation.sender_profile_id MeetingInvitation.receiver_profile_id].
  repeat split; try reflexivity; assumption.
Qed.

(** X10: for a request whose body is a JSON object with [title],
    [start_time] and [end_time] absent or strings and [classroom_id] absent,
    an integer or a string, and whose classroom id, once converted by
    [int()], fits the signed 64-bit integer of the store,
    [create_webex_meeting] either answers 400 or 404 and writes nothing, or
    answers 201 and appends exactly one invitation: it has the next key, is
    pending, is linked to no meeting, goes from the caller's first profile
    to an existing profile, and never from a profile to itself.  (Outside
    that domain the handler does not answer: an explicit [null] title fails
    the NOT NULL column at the commit, and a larger id overflows in
    [Profile.query.get].) *)
Theorem create_invitation_outcomes
        (d : DB) (now : Z) (current_user_id : nat) (data : MeetingData.t) :
  (forall c z,
     MeetingData.classroom_id data = Some c ->
     classroom_ref_int py_int c = Some z ->
     (- 9223372036854775808 <= z < 9223372036854775808)%Z) ->
  let r := create_webex_meeting fromisoformat isoformat py_int d now
             current_user_id data in
  (fst r = d /\ (code_of (snd r) = 400 \/ code_of (snd r) = 404))
  \/ exists inv account sender receiver,
       fst r = set_meeting_invitations d (meeting_invitations d ++ [inv])
       /\ code_of (snd r) = 201
       /\ MeetingInvitation.id inv = next_id MeetingInvitation.id (meeting_invitations d)
       /\ MeetingInvitation.status inv = "pending"
       /\ MeetingInvitation.meeting_id inv = None
       /\ query_get Account.id (accounts d) current_user_id = Some account
       /\ first_profile d account = Some sender
       /\ MeetingInvitation.sender_profile_id inv = Profile.id sender
       /\ query_get Profile.id (profiles d) (MeetingInvitation.receiver_profile_id inv)
          = Some receiver
       /\ MeetingInvitation.sender_profile_id inv
          <> MeetingInvitation.receiver_profile_id inv.
Proof.
  intros _. exact (create_webex_meeting_cases d now current_user_id data).
Qed.

(** X11: invitations are never lost or renumbered by a creation: every
    invitation found under a key before the call is found unchanged under
    that key after it; and after a 201 the key reported to the caller, the
    next key of the table, finds the new pending invitation. *)
Theorem create_invitation_lookup
        (d : DB) (now : Z) (current_user_id : nat) (data : MeetingData.t) :
  let r := create_webex_meeting fromisoformat isoformat py_int d now
             current_user_id data in
  (forall j x,
     query_get MeetingInvitation.id (meeting_invitations d) j = Some x ->
     query_get MeetingInvitation.id (meeting_invitations (fst r)) j = Some x)
  /\ (code_of (snd r) = 201 ->
      exists inv,
        query_get MeetingInvitation.id (meeting_invitations (fst r))
                  (next_id MeetingInvitation.id (meeting_invitations d)) = Some inv
        /\ MeetingInvitation.status inv = "pending").
Proof.
  intros r.
  destruct (create_webex_meeting_cases d now current_user_id data)
    as [[Hd Hc] | [inv [a [s [rc [Hd [Hc [Hid [Hst _]]]]]]]]]; fold r in Hd, Hc.
  - rewrite Hd. split; [auto |]. intros H. rewrite H in Hc.
    destruct Hc; discriminate.
  - rewrite Hd. cbn [meeting_invitations set_meeting_invitations]. split.
    + intros j x Hx. unfold query_get. apply find_app_some. exact Hx.
    + intros _. exists inv. split; [| exact Hst].
      apply query_get_snoc_new. exact Hid.
Qed.

End InvitationCreation.

Lemma endswith_Z_snoc (s : string) : endswith_Z (s ++ "Z") = true.
Proof.
  induction s as [| c s IH]; [reflexivity |].
  simpl. destruct (s ++ "Z")%string eqn:E; [| exact IH].
  destruct s; discriminate.
Qed.

Lemma drop_last_snoc (s : string) : drop_last (s ++ "Z") = s.
Proof.
  induction s as [| c s IH]; [reflexivity |].
  simpl. destruct (s ++ "Z")%string eqn:E.
  - destruct s; discriminate.
  - rewrite IH. reflexivity.
Qed.

Lemma strip_Z_snoc (s : string) : strip_Z (s ++ "Z") = s.
Proof. unfold strip_Z. rewrite endswith_Z_snoc. apply drop_last_snoc. Qed.

Lemma truthy_snoc_Z (s : string) : truthy_str (Some (s ++ "Z")%string) = true.
Proof. destruct s; reflexivity. Qed.

Section TrailingZ.

Variable fromisoformat : string -> option Z.
Variable isoformat : Z -> string.
Variable py_int : string -> option Z.

(** X12: one trailing 'Z' on a time is dropped before parsing: for a
    non-empty time string that does not itself end in 'Z', the request with
    that string and the request with the string followed by 'Z' are handled
    alike, as [start_time] and as [end_time]. *)
Theorem create_invitation_ignores_trailing_Z
        (d : DB) (now : Z) (current_user_id : nat)
        (title : option string) (c : option classroom_ref)
        (s : string) (other : option string) :
  s <> "" ->
  endswith_Z s = false ->
  create_webex_meeting fromisoformat isoformat py_int d now current_user_id
    (MeetingData.mk title (Some (s ++ "Z")%string) other c)
  = create_webex_meeting fromisoformat isoformat py_int d now current_user_id
      (MeetingData.mk title (Some s) other c)
  /\ create_webex_meeting fromisoformat isoformat py_int d now current_user_id
       (MeetingData.mk title other (Some (s ++ "Z")%string) c)
     = create_webex_meeting fromisoformat isoformat py_int d now current_user_id
         (MeetingData.mk title other (Some s) c).
Proof.
  intros Hs Hz.
  assert (Ht : truthy_str (Some s) = true).
  { simpl. apply String.eqb_neq in Hs. rewrite Hs. reflexivity. }
  assert (Hstrip : strip_Z s = s) by (unfold strip_Z; rewrite Hz; reflexivity).
  assert (Hw1 : meeting_window fromisoformat now (Some (s ++ "Z")%string) other
                = meeting_window fromisoformat now (Some s) other).
  { unfold meeting_window. rewrite truthy_snoc_Z, Ht, strip_Z_snoc, Hstrip.
    reflexivity. }
  assert (Hw2 : meeting_window fromisoformat now other (Some (s ++ "Z")%string)
                = meeting_window fromisoformat now other (Some s)).
  { unfold meeting_window. rewrite truthy_snoc_Z, Ht, strip_Z_snoc, Hstrip.
    reflexivity. }
  unfold create_webex_meeting.
  cbn [MeetingData.title MeetingData.start_time MeetingData.end_time
       MeetingData.classroom_id].
  rewrite Hw1, Hw2. split; reflexivity.
Qed.

End TrailingZ.

(** ** Meeting invitations: decisions and what follows them *)

Lemma map_id_update_row {A : Type} (id : A -> nat) (i : nat) (f : A -> A)
      (tbl : list A) :
  (forall r, id r = i -> id (f r) = i) ->
  map id (update_row id i f tbl) = map id tbl.
Proof.
  intros Hid. unfold update_row. rewrite map_map. apply map_ext_in.
  intros r _. destruct (Nat.eqb (id r) i) eqn:E; [| reflexivity].
  apply Nat.eqb_eq in E. rewrite (Hid r E). auto.
Qed.

Lemma query_get_same_keys {A : Type} (id : A -> nat) (l l' : list A) (i : nat)
      (a : A) :
  map id l' = map id l ->
  query_get id l i = Some a ->
  exists a', query_get id l' i = Some a' /\ id a' = i.
Proof.
  unfold query_get. revert l'.
  induction l as [| x l IH]; intros l' Hm Hq; [discriminate |].
  destruct l' as [| x' l']; [discriminate |].
  simpl in Hm. inversion Hm as [[Hx Hl]]. simpl in *.
  rewrite Hx. destruct (Nat.eqb (id x) i) eqn:E.
  - exists x'. split; [reflexivity |]. apply Nat.eqb_eq in E. congruence.
  - apply IH; assumption.
Qed.

Lemma first_profile_same (d d' : DB) (a a' : Account.t) :
  profiles d' = profiles d -> Account.id a' = Account.id a ->
  first_profile d' a' = first_profile d a.
Proof. intros Hp Hi. unfold first_profile. rewrite Hp, Hi. reflexivity. Qed.

Section InvitationDecisions.

Variable isoformat : Z -> string.
Variable refresh_access_token : option string -> call TokenData.t.
Variable create_meeting : option string -> string -> Z -> Z -> call WebexMeeting.t.

Lemma refresh_if_expired_accounts (d d1 : DB) (now : Z) (sa sa' : Account.t) :
  refresh_if_expired refresh_access_token d now sa = Some (d1, sa') ->
  map Account.id (accounts d1) = map Account.id (accounts d)
  /\ Account.id sa' = Account.id sa.
Proof.
  unfold refresh_if_expired.
  destruct (Account.webex_token_expires_at sa) as [e |].
  - destruct (e <? now)%Z.
    + destruct (refresh_access_token (Account.webex_refresh_token sa));
        [| discriminate].
      intros H. inversion H. subst. cbn [accounts set_accounts]. split.
      * apply map_id_update_row. intros r Hr. reflexivity.
      * reflexivity.
    + intros H. inversion H. subst. auto.
  - intros H. inversion H. subst. auto.
Qed.

(** Accept never adds, removes or renumbers an account or a profile. *)
Lemma accept_invitation_keeps_identities
      (d : DB) (now : Z) (current_user_id invitation_id : nat) :
  let d' := fst (accept_invitation isoformat refresh_access_token create_meeting
                                   d now current_user_id invitation_id) in
  profiles d' = profiles d
  /\ map Account.id (accounts d') = map Account.id (accounts d).
Proof.
  unfold accept_invitation.
  destruct (query_get Account.id (accounts d) current_user_id) as [account |];
    [| cbn; auto].
  destruct (first_profile d account) as [p |]; [| cbn; auto].
  destruct (query_get MeetingInvitation.id (meeting_invitations d) invitation_id)
    as [inv |]; [| cbn; auto].
  destruct (negb (Nat.eqb _ _)); [cbn; auto |].
  destruct (negb (String.eqb _ _)); [cbn; auto |].
  destruct (query_get Profile.id (profiles d) _) as [sender |]; [| cbn; auto].
  destruct (query_get Account.id (accounts d) (Profile.account_id sender))
    as [sender_account |]; [| cbn; auto].
  destruct (negb (truthy_str _)); [cbn; auto |].
  destruct (refresh_if_expired refresh_access_token d now sender_account)
    as [[d1 sa] |] eqn:Href; [| cbn; auto].
  destruct (refresh_if_expired_accounts _ _ _ _ _ Href) as [Hacc _].
  destruct (refresh_if_expired_tables _ _ _ _ _ _ Href) as [_ [_ Hprof]].
  destruct (create_meeting _ _ _ _); cbn; auto.
Qed.

(** X13: a pending invitation declined by its receiver becomes 'declined'
    (200) while the meetings and every other invitation stay as they were;
    an accept that follows, by the same caller, at any time and whatever
    the WebEx service would answer, gets the 400 "Invitation is already
    declined" and writes nothing. *)
Theorem decline_then_accept_conflicts
        (d : DB) (now : Z) (current_user_id invitation_id : nat)
        (account : Account.t) (p : Profile.t) (inv : MeetingInvitation.t) :
  query_get Account.id (accounts d) current_user_id = Some account ->
  first_profile d account = Some p ->
  query_get MeetingInvitation.id (meeting_invitations d) invitation_id = Some inv ->
  MeetingInvitation.receiver_profile_id inv = Profile.id p ->
  MeetingInvitation.status inv = "pending" ->
  let r := decline_invitation d current_user_id invitation_id in
  snd r = Return (msg_body "Invitation declined successfully") 200
  /\ query_get MeetingInvitation.id (meeting_invitations (fst r)) invitation_id
     = Some (MeetingInvitation_set_status "declined" inv)
  /\ (forall j, j <> invitation_id ->
        query_get MeetingInvitation.id (meeting_invitations (fst r)) j
        = query_get MeetingInvitation.id (meeting_invitations d) j)
  /\ meetings (fst r) = meetings d
  /\ accept_invitation isoformat refresh_access_token create_meeting
                       (fst r) now current_user_id invitation_id
     = (fst r, Return (msg_body "Invitation is already declined") 400).
Proof.
  intros Hacc Hp Hinv Hrecv Hst r.
  pose proof (query_get_In _ _ _ _ Hinv) as [_ Hid].
  assert (Hr : r = (set_meeting_invitations d
                      (update_row MeetingInvitation.id invitation_id
                         (MeetingInvitation_set_status "declined")
                         (meeting_invitations d)),
                    Return (msg_body "Invitation declined successfully") 200)).
  { subst r. unfold decline_invitation.
    rewrite Hacc, Hp, Hinv, Hrecv, Nat.eqb_refl, Hst, String.eqb_refl, Hid.
    reflexivity. }
  rewrite Hr. cbn [fst snd meeting_invitations set_meeting_invitations meetings].
  assert (Hq : query_get MeetingInvitation.id
                 (update_row MeetingInvitation.id invitation_id
                    (MeetingInvitation_set_status "declined")
                    (meeting_invitations d)) invitation_id
               = Some (MeetingInvitation_set_status "declined" inv))
    by (apply query_get_update_row; [reflexivity | exact Hinv]).
  split; [reflexivity |]. split; [exact Hq |].
  split.
  { intros j Hj. apply query_get_update_row_other; [reflexivity | exact Hj]. }
  split; [reflexivity |].
  unfold accept_invitation.
  cbn [accounts set_meeting_invitations meeting_invitations].
  rewrite Hacc.
  replace (first_profile (set_meeting_invitations d _) account)
    with (first_profile d account) by reflexivity.
  rewrite Hp, Hq. cbn [MeetingInvitation.receiver_profile_id
    MeetingInvitation.status MeetingInvitation_set_status].
  rewrite Hrecv, Nat.eqb_refl. reflexivity.
Qed.

(** X14: a pending invitation cancelled by its sender becomes 'cancelled'
    (200); the receiver's accept that follows gets the 400 "Invitation is
    already cancelled", and no meeting is created. *)
Theorem cancel_then_accept_conflicts
        (d : DB) (now : Z) (sender_user receiver_user invitation_id : nat)
        (sender_account receiver_account : Account.t) (ps pr : Profile.t)
        (inv : MeetingInvitation.t) :
  query_get Account.id (accounts d) sender_user = Some sender_account ->
  first_profile d sender_account = Some ps ->
  query_get Account.id (accounts d) receiver_user = Some receiver_account ->
  first_profile d receiver_account = Some pr ->
  query_get MeetingInvitation.id (meeting_invitations d) invitation_id = Some inv ->
  MeetingInvitation.sender_profile_id inv = Profile.id ps ->
  MeetingInvitation.receiver_profile_id inv = Profile.id pr ->
  MeetingInvitation.status inv = "pending" ->
  let r := cancel_invitation d sender_user invitation_id in
  snd r = Return (msg_body "Invitation cancelled successfully") 200
  /\ query_get MeetingInvitation.id (meeting_invitations (fst r)) invitation_id
     = Some (MeetingInvitation_set_status "cancelled" inv)
  /\ meetings (fst r) = meetings d
  /\ accept_invitation isoformat refresh_access_token create_meeting
                       (fst r) now receiver_user invitation_id
     = (fst r, Return (msg_body "Invitation is already cancelled") 400).
Proof.
  intros Hsa Hps Hra Hpr Hinv Hs Hrecv Hst r.
  pose proof (query_get_In _ _ _ _ Hinv) as [_ Hid].
  assert (Hr : r = (set_meeting_invitations d
                      (update_row MeetingInvitation.id invitation_id
                         (MeetingInvitation_set_status "cancelled")
                         (meeting_invitations d)),
                    Return (msg_body "Invitation cancelled successfully") 200)).
  { subst r. unfold cancel_invitation.
    rewrite Hsa, Hps, Hinv, Hs, Nat.eqb_refl, Hst, String.eqb_refl, Hid.
    reflexivity. }
  rewrite Hr. cbn [fst snd meeting_invitations set_meeting_invitations meetings].
  assert (Hq : query_get MeetingInvitation.id
                 (update_row MeetingInvitation.id invitation_id
                    (MeetingInvitation_set_status "cancelled")
                    (meeting_invitations d)) invitation_id
               = Some (MeetingInvitation_set_status "cancelled" inv))
    by (apply query_get_update_row; [reflexivity | exact Hinv]).
  split; [reflexivity |]. split; [exact Hq |]. split; [reflexivity |].
  unfold accept_invitation.
  cbn [accounts set_meeting_invitations meeting_invitations].
  rewrite Hra.
  replace (first_profile (set_meeting_invitations d _) receiver_account)
    with (first_profile d receiver_account) by reflexivity.
  rewrite Hpr, Hq. cbn [MeetingInvitation.receiver_profile_id
    MeetingInvitation.status MeetingInvitation_set_status].
  rewrite Hrecv, Nat.eqb_refl. reflexivity.
Qed.

End InvitationDecisions.

Section AcceptTwice.

Variable isoformat isoformat' : Z -> string.
Variable refresh_access_token refresh_access_token'
  : option string -> call TokenData.t.
Variable create_meeting create_meeting'
  : option string -> string -> Z -> Z -> call WebexMeeting.t.

(** X15: accepting is not repeatable.  After an accept that succeeded (201),
    a second accept of the same invitation by the same caller, at any time
    and whatever the WebEx service would answer, gets the 400 "Invitation is
    already accepted" and writes nothing: no second meeting is created. *)
Theorem accept_twice_conflicts
        (d : DB) (now now' : Z) (current_user_id invitation_id : nat)
        (account : Account.t) (p : Profile.t) (inv : MeetingInvitation.t)
        (sender : Profile.t) (sender_account : Account.t)
        (d1 : DB) (sa : Account.t) (wm : WebexMeeting.t) :
  query_get Account.id (accounts d) current_user_id = Some account ->
  first_profile d account = Some p ->
  query_get MeetingInvitation.id (meeting_invitations d) invitation_id = Some inv ->
  MeetingInvitation.receiver_profile_id inv = Profile.id p ->
  MeetingInvitation.status inv = "pending" ->
  query_get Profile.id (profiles d) (MeetingInvitation.sender_profile_id inv)
  = Some sender ->
  query_get Account.id (accounts d) (Profile.account_id sender)
  = Some sender_account ->
  truthy_str (Account.webex_access_token sender_account) = true ->
  refresh_if_expired refresh_access_token d now sender_account = Some (d1, sa) ->
  create_meeting (Account.webex_access_token sa)
                 (MeetingInvitation.title inv)
                 (MeetingInvitation.start_time inv)
                 (MeetingInvitation.end_time inv) = Ok wm ->
  let r := accept_invitation isoformat refresh_access_token create_meeting
                             d now current_user_id invitation_id in
  code_of (snd r) = 201
  /\ accept_invitation isoformat' refresh_access_token' create_meeting'
                       (fst r) now' current_user_id invitation_id
     = (fst r, Return (msg_body "Invitation is already accepted") 400).
Proof.
  intros Hacc Hp Hinv Hrecv Hst Hsender Hsacc Ht Href Hok r.
  destruct (accept_invitation_success isoformat refresh_access_token create_meeting
              d now current_user_id invitation_id account p inv sender
              sender_account d1 sa wm Hacc Hp Hinv Hrecv Hst Hsender Hsacc Ht
              Href Hok)
    as [d' [body [m [Hr [_ [_ [_ [_ Hq]]]]]]]].
  destruct (accept_invitation_keeps_identities isoformat refresh_access_token
              create_meeting d now current_user_id invitation_id)
    as [Hprof Hids].
  fold r in Hr, Hprof, Hids. rewrite Hr in *. cbn [fst snd code_of] in *.
  split; [reflexivity |].
  destruct (query_get_same_keys Account.id (accounts d) (accounts d')
              current_user_id account Hids Hacc) as [account' [Hacc' Hid']].
  pose proof (query_get_In _ _ _ _ Hacc) as [_ Hid].
  unfold accept_invitation. rewrite Hacc'.
  rewrite (first_profile_same d d' account account' Hprof) by congruence.
  rewrite Hp, Hq.
  cbn [MeetingInvitation.receiver_profile_id MeetingInvitation.status
       MeetingInvitation_set_status MeetingInvitation_set_meeting_id].
  rewrite Hrecv, Nat.eqb_refl. reflexivity.
Qed.

(** X16: what a token refresh settles.  If the service answers the refresh
    of an expired token with a non-zero [expires_in], the account row is
    replaced by the account with the answer's access token, the answer's
    refresh token (the old one if the answer has none) and the expiry [now +
    expires_in]; if [expires_in] is positive, a second look at the same
    instant refreshes nothing, whatever the service would answer.  If the
    answer has no [expires_in], or zero, the stored expiry stays where it
    was, in the past: the token counts as expired again at the next
    request. *)
Theorem refresh_if_expired_settles
        (d d1 : DB) (now : Z) (sa sa1 : Account.t) :
  refresh_if_expired refresh_access_token d now sa = Some (d1, sa1) ->
  ((forall td, refresh_access_token (Account.webex_refresh_token sa) = Ok td ->
               exists n, TokenData.expires_in td = Some n /\ (0 < n)%Z) ->
   refresh_if_expired refresh_access_token' d1 now sa1 = Some (d1, sa1))
  /\ (forall e td,
        Account.webex_token_expires_at sa = Some e ->
        (e < now)%Z ->
        refresh_access_token (Account.webex_refresh_token sa) = Ok td ->
        TokenData.expires_in td = None \/ TokenData.expires_in td = Some 0%Z ->
        Account.webex_token_expires_at sa1 = Some e)
  /\ (forall e td n,
        Account.webex_token_expires_at sa = Some e ->
        (e < now)%Z ->
        refresh_access_token (Account.webex_refresh_token sa) = Ok td ->
        TokenData.expires_in td = Some n ->
        n <> 0%Z ->
        sa1 = Account.mk (Account.id sa) (Account.email sa)
                         (Account.password_hash sa) (Account.organization sa)
                         (TokenData.access_token td)
                         (match TokenData.refresh_token td with
                          | Some r => Some r
                          | None => Account.webex_refresh_token sa
                          end)
                         (Some (now + n)%Z)
        /\ accounts d1
           = update_row Account.id (Account.id sa) (fun _ => sa1) (accounts d)).
Proof.
  unfold refresh_if_expired.
  destruct (Account.webex_token_expires_at sa) as [e |] eqn:He.
  - destruct (e <? now)%Z eqn:Hlt.
    + destruct (refresh_access_token (Account.webex_refresh_token sa))
        as [td |] eqn:Hcall; [| discriminate].
      intros H. inversion H. subst d1 sa1. clear H. split; [| split].
      * intros Hpos. destruct (Hpos td eq_refl) as [n [Hn Hn0]].
        rewrite Hn. replace (Z.eqb n 0) with false
          by (symmetry; apply Z.eqb_neq; lia).
        cbn [Account.webex_token_expires_at Account_set_tokens].
        replace (now + n <? now)%Z with false
          by (symmetry; apply Z.ltb_ge; lia).
        reflexivity.
      * intros e' td' He' _ Htd Hex. inversion He'. inversion Htd. subst e' td'.
        cbn [Account.webex_token_expires_at Account_set_tokens].
        destruct Hex as [Hex | Hex]; rewrite Hex; reflexivity.
      * intros e' td' n He' _ Htd Hn Hn0. inversion Htd. subst td'.
        rewrite Hn. replace (Z.eqb n 0) with false
          by (symmetry; apply Z.eqb_neq; exact Hn0).
        split; reflexivity.
    + intros H. inversion H. subst d1 sa1. split; [| split].
      * intros _. rewrite He, Hlt. reflexivity.
      * intros e' td He' Hlt'. inversion He'. subst e'.
        apply Z.ltb_lt in Hlt'. congruence.
      * intros e' td n He' Hlt'. inversion He'. subst e'.
        apply Z.ltb_lt in Hlt'. congruence.
  - intros H. inversion H. subst d1 sa1. split; [| split].
    + intros _. rewrite He. reflexivity.
    + intros e td He'. discriminate.
    + intros e td n He'. discriminate.
Qed.

End AcceptTwice.

(** ** manage_meeting *)

Lemma meeting_get_filter_same (i : nat) (l : list Meeting.t) :
  find (meeting_has_id i) (filter (fun m => negb (meeting_has_id i m)) l) = None.
Proof.
  apply find_none_intro. intros m Hm. apply filter_In in Hm.
  destruct Hm as [_ Hm]. destruct (meeting_has_id i m); [discriminate | reflexivity].
Qed.

Lemma meeting_has_id_two (i j : nat) (m : Meeting.t) :
  meeting_has_id j m = true -> j <> i -> meeting_has_id i m = false.
Proof.
  unfold meeting_has_id. destruct (Meeting.id m) as [k |]; [| discriminate].
  intros Hj Hne. apply Nat.eqb_eq in Hj. subst k. apply Nat.eqb_neq. exact Hne.
Qed.

Lemma meeting_get_filter_other (i j : nat) (l : list Meeting.t) :
  j <> i ->
  find (meeting_has_id j) (filter (fun m => negb (meeting_has_id i m)) l)
  = find (meeting_has_id j) l.
Proof.
  intros Hne. induction l as [| m l IH]; simpl; [reflexivity |].
  destruct (meeting_has_id j m) eqn:Hj.
  - rewrite (meeting_has_id_two i j m Hj Hne). simpl. rewrite Hj. reflexivity.
  - destruct (negb (meeting_has_id i m)); simpl; [rewrite Hj |]; exact IH.
Qed.

Lemma meeting_get_map_times (i j : nat) (s e : Z) (l : list Meeting.t) :
  find (meeting_has_id j)
       (map (fun m => if meeting_has_id i m then Meeting_set_times s e m else m) l)
  = option_map (fun m => if meeting_has_id i m then Meeting_set_times s e m else m)
               (find (meeting_has_id j) l).
Proof.
  induction l as [| m l IH]; simpl; [reflexivity |].
  destruct (meeting_has_id i m) eqn:Hi.
  - change (meeting_has_id j (Meeting_set_times s e m)) with (meeting_has_id j m).
    destruct (meeting_has_id j m); [simpl; rewrite Hi; reflexivity | exact IH].
  - destruct (meeting_has_id j m); [simpl; rewrite Hi; reflexivity | exact IH].
Qed.

Section ManageMeetingProperties.

Variable fromisoformat : string -> option Z.
Variable isoformat : Z -> string.
Variable refresh_access_token : option string -> call TokenData.t.
Variable delete_meeting : option string -> string -> call unit.
Variable update_meeting : option string -> string -> Z -> Z -> call unit.

Lemma refresh_if_connected_frame (d d1 : DB) (now : Z) (a a1 : Account.t) :
  refresh_if_connected refresh_access_token d now a = (d1, a1) ->
  meetings d1 = meetings d
  /\ meeting_invitations d1 = meeting_invitations d
  /\ profiles d1 = profiles d
  /\ map Account.id (accounts d1) = map Account.id (accounts d)
  /\ Account.id a1 = Account.id a.
Proof.
  unfold refresh_if_connected.
  destruct (truthy_str (Account.webex_access_token a)).
  - destruct (refresh_if_expired refresh_access_token d now a) as [[d2 a2] |] eqn:Href.
    + intros H. inversion H. subst d2 a2.
      destruct (refresh_if_expired_tables _ _ _ _ _ _ Href) as [Hi [Hm Hp]].
      destruct (refresh_if_expired_accounts _ _ _ _ _ _ Href) as [Hids Hid].
      auto.
    + intros H. inversion H. subst. auto.
  - intros H. inversion H. subst. auto.
Qed.

(** X17: [manage_meeting] writes to the meetings and to the invitations only
    when it answers 200 to a DELETE or a PUT: a GET, and every request that
    is answered otherwise (403, 404, 400 on an unparseable time, 500 when
    the WebEx service raises, or an escaped exception), leaves both tables
    and the profiles as they were. *)
Theorem manage_meeting_writes_on_success_only
        (d : DB) (now : Z) (method : http_method)
        (current_user_id meeting_id : nat) (data : MeetingUpdate.t) :
  let r := manage_meeting fromisoformat isoformat refresh_access_token
             delete_meeting update_meeting d now method current_user_id
             meeting_id data in
  method = GET \/ code_of (snd r) <> 200 ->
  meetings (fst r) = meetings d
  /\ meeting_invitations (fst r) = meeting_invitations d
  /\ profiles (fst r) = profiles d.
Proof.
  unfold manage_meeting.
  destruct (query_get Account.id (accounts d) current_user_id) as [account |];
    [| cbn; auto].
  destruct (meeting_get d meeting_id) as [meeting |]; [| cbn; auto].
  destruct (first_profile d account) as [profile |]; [| cbn; auto].
  destruct (negb (_ || _)); [cbn; auto |].
  destruct (refresh_if_connected refresh_access_token d now account)
    as [d1 account1] eqn:Href.
  destruct (refresh_if_connected_frame _ _ _ _ _ Href) as [Hm [Hi [Hp _]]].
  destruct method.
  - destruct (query_get Profile.id (profiles d1) _); cbn; auto.
  - destruct (negb (Nat.eqb _ _)); [cbn; auto |].
    destruct (negb (truthy_str _)); [cbn; auto |].
    match goal with |- context [match ?x with Ok _ => _ | Raises _ => _ end] =>
      destruct x end; [| cbn; auto].
    cbn [fst snd code_of]. intros [H | H]; [discriminate | exfalso; auto].
  - destruct (negb (Nat.eqb _ _)); [cbn; auto |].
    destruct (negb (truthy_str _)); [cbn; auto |].
    destruct (parse_time_or _ _ _); [| cbn; auto].
    destruct (parse_time_or _ _ _); [| cbn; auto].
    match goal with |- context [match ?x with Ok _ => _ | Raises _ => _ end] =>
      destruct x end; [| cbn; auto].
    cbn [fst snd code_of]. intros [H | H]; [discriminate | exfalso; auto].
Qed.

(** X18: only the creator can delete or update.  For a caller whose first
    profile is not the creator of the meeting, participant or not, a DELETE
    and a PUT are answered 403 and the meetings stay as they were. *)
Theorem manage_meeting_creator_only
        (d : DB) (now : Z) (method : http_method)
        (current_user_id meeting_id : nat) (data : MeetingUpdate.t)
        (account : Account.t) (meeting : Meeting.t) (profile : Profile.t) :
  query_get Account.id (accounts d) current_user_id = Some account ->
  meeting_get d meeting_id = Some meeting ->
  first_profile d account = Some profile ->
  Meeting.creator_id meeting <> Profile.id profile ->
  method <> GET ->
  let r := manage_meeting fromisoformat isoformat refresh_access_token
             delete_meeting update_meeting d now method current_user_id
             meeting_id data in
  (exists m, snd r = Return (msg_body m) 403)
  /\ meetings (fst r) = meetings d.
Proof.
  intros Hacc Hmeet Hprof Hne Hmethod r. subst r.
  unfold manage_meeting. rewrite Hacc, Hmeet, Hprof.
  replace (Nat.eqb (Meeting.creator_id meeting) (Profile.id profile)) with false
    by (symmetry; apply Nat.eqb_neq; exact Hne).
  cbn [orb negb].
  destruct (mem (Profile.id profile) (Meeting.participants meeting));
    cbn [negb]; [| cbn; eauto].
  destruct (refresh_if_connected refresh_access_token d now account)
    as [d1 account1] eqn:Href.
  destruct (refresh_if_connected_frame _ _ _ _ _ Href) as [Hm _].
  destruct method; [congruence | |]; cbn [fst snd]; eauto.
Qed.

(** X19: if the WebEx service raises on a DELETE by the creator, the answer
    is 500 with the service's message and the meeting is still there: the
    external resource is removed before the row, and the row is kept when
    that fails. *)
Theorem manage_meeting_delete_failure_keeps_meeting
        (d d1 : DB) (now : Z) (current_user_id meeting_id : nat)
        (data : MeetingUpdate.t)
        (account account1 : Account.t) (meeting : Meeting.t) (profile : Profile.t)
        (webex_id e : string) :
  query_get Account.id (accounts d) current_user_id = Some account ->
  meeting_get d meeting_id = Some meeting ->
  first_profile d account = Some profile ->
  Meeting.creator_id meeting = Profile.id profile ->
  refresh_if_connected refresh_access_token d now account = (d1, account1) ->
  truthy_str (Account.webex_access_token account1) = true ->
  Meeting.webex_id meeting = Some webex_id ->
  webex_id <> "" ->
  delete_meeting (Account.webex_access_token account1) webex_id = Raises e ->
  let r := manage_meeting fromisoformat isoformat refresh_access_token
             delete_meeting update_meeting d now DELETE current_user_id
             meeting_id data in
  snd r = Return (msg_body ("Failed to delete meeting: " ++ e)%string) 500
  /\ meeting_get (fst r) meeting_id = Some meeting.
Proof.
  intros Hacc Hmeet Hprof Hcr Href Htok Hw Hwne Hraise r. subst r.
  destruct (refresh_if_connected_frame _ _ _ _ _ Href) as [Hm _].
  unfold manage_meeting. rewrite Hacc, Hmeet, Hprof, Hcr, Nat.eqb_refl.
  cbn [orb negb]. rewrite Href, Htok, Hw. cbn [negb].
  apply String.eqb_neq in Hwne. rewrite Hwne, Hraise. cbn [fst snd].
  split; [reflexivity |]. unfold meeting_get. rewrite Hm. exact Hmeet.
Qed.

(** X20: a DELETE by the creator that the WebEx service lets through (or a
    meeting without a WebEx id) is answered 200; the meeting is then no
    longer found, every other meeting is found as before, no invitation
    refers to the deleted meeting any more, and a second DELETE of it is
    answered 404. *)
Theorem manage_meeting_delete_removes
        (d d1 : DB) (now now' : Z) (current_user_id meeting_id : nat)
        (data data' : MeetingUpdate.t)
        (account account1 : Account.t) (meeting : Meeting.t) (profile : Profile.t) :
  query_get Account.id (accounts d) current_user_id = Some account ->
  meeting_get d meeting_id = Some meeting ->
  first_profile d account = Some profile ->
  Meeting.creator_id meeting = Profile.id profile ->
  refresh_if_connected refresh_access_token d now account = (d1, account1) ->
  truthy_str (Account.webex_access_token account1) = true ->
  (forall webex_id, Meeting.webex_id meeting = Some webex_id ->
                    webex_id <> "" ->
                    delete_meeting (Account.webex_access_token account1) webex_id
                    = Ok tt) ->
  let r := manage_meeting fromisoformat isoformat refresh_access_token
             delete_meeting update_meeting d now DELETE current_user_id
             meeting_id data in
  snd r = Return (msg_body "Meeting deleted successfully") 200
  /\ meeting_get (fst r) meeting_id = None
  /\ (forall j, j <> meeting_id -> meeting_get (fst r) j = meeting_get d j)
  /\ (forall inv, In inv (meeting_invitations (fst r)) ->
                  invitation_links meeting_id inv = false)
  /\ manage_meeting fromisoformat isoformat refresh_access_token
       delete_meeting update_meeting (fst r) now' DELETE current_user_id
       meeting_id data'
     = (fst r, Return (msg_body "Meeting not found") 404).
Proof.
  intros Hacc Hmeet Hprof Hcr Href Htok Hdel r.
  destruct (refresh_if_connected_frame _ _ _ _ _ Href) as [Hm [Hi [Hp [Hids _]]]].
  assert (Hr : r = (delete_meeting_row d1 meeting_id,
                    Return (msg_body "Meeting deleted successfully") 200)).
  { subst r. unfold manage_meeting.
    rewrite Hacc, Hmeet, Hprof, Hcr, Nat.eqb_refl.
    cbn [orb negb]. rewrite Href, Htok. cbn [negb].
    destruct (Meeting.webex_id meeting) as [w |] eqn:Hw; [| reflexivity].
    destruct (String.eqb w "") eqn:Hwe; [reflexivity |].
    apply String.eqb_neq in Hwe. rewrite (Hdel w eq_refl Hwe). reflexivity. }
  rewrite Hr. cbn [fst snd].
  assert (Hgone : meeting_get (delete_meeting_row d1 meeting_id) meeting_id = None).
  { unfold meeting_get, delete_meeting_row.
    cbn [meetings set_meeting_invitations set_meetings].
    apply meeting_get_filter_same. }
  split; [reflexivity |]. split; [exact Hgone |]. split.
  { intros j Hj. unfold meeting_get, delete_meeting_row.
    cbn [meetings set_meeting_invitations set_meetings].
    rewrite Hm. apply meeting_get_filter_other. exact Hj. }
  split.
  { intros inv Hin. unfold delete_meeting_row in Hin.
    cbn [meeting_invitations set_meeting_invitations] in Hin.
    apply in_map_iff in Hin. destruct Hin as [x [Hx _]].
    destruct (invitation_links meeting_id x) eqn:E; subst inv; [reflexivity | exact E]. }
  assert (Hids' : map Account.id (accounts (delete_meeting_row d1 meeting_id))
                  = map Account.id (accounts d)) by exact Hids.
  destruct (query_get_same_keys Account.id (accounts d) _ current_user_id account
              Hids' Hacc) as [account' [Hacc' _]].
  unfold manage_meeting. rewrite Hacc', Hgone. reflexivity.
Qed.

(** X21: a PUT by the creator with both times given and parseable, which
    the WebEx service lets through, is answered 200; the meeting then
    carries the two parsed times (a trailing 'Z' dropped), everything else
    of it unchanged, and every other meeting is found as before. *)
Theorem manage_meeting_put_updates_times
        (d d1 : DB) (now : Z) (current_user_id meeting_id : nat)
        (account account1 : Account.t) (meeting : Meeting.t) (profile : Profile.t)
        (s e : string) (start_time end_time : Z) :
  query_get Account.id (accounts d) current_user_id = Some account ->
  meeting_get d meeting_id = Some meeting ->
  first_profile d account = Some profile ->
  Meeting.creator_id meeting = Profile.id profile ->
  refresh_if_connected refresh_access_token d now account = (d1, account1) ->
  truthy_str (Account.webex_access_token account1) = true ->
  s <> "" -> e <> "" ->
  fromisoformat (strip_Z s) = Some start_time ->
  fromisoformat (strip_Z e) = Some end_time ->
  (forall webex_id, Meeting.webex_id meeting = Some webex_id ->
                    webex_id <> "" ->
                    update_meeting (Account.webex_access_token account1) webex_id
                                   start_time end_time = Ok tt) ->
  let r := manage_meeting fromisoformat isoformat refresh_access_token
             delete_meeting update_meeting d now PUT current_user_id
             meeting_id (MeetingUpdate.mk (Some s) (Some e)) in
  snd r = Return (msg_body "Meeting updated successfully") 200
  /\ meeting_get (fst r) meeting_id
     = Some (Meeting_set_times start_time end_time meeting)
  /\ (forall j, j <> meeting_id -> meeting_get (fst r) j = meeting_get d j).
Proof.
  intros Hacc Hmeet Hprof Hcr Href Htok Hs He Hps Hpe Hupd r.
  destruct (refresh_if_connected_frame _ _ _ _ _ Href) as [Hm _].
  assert (Hid : meeting_has_id meeting_id meeting = true).
  { unfold meeting_get in Hmeet. apply find_some in Hmeet. tauto. }
  assert (Hr : r = (set_meetings d1
                      (map (fun m => if meeting_has_id meeting_id m
                                     then Meeting_set_times start_time end_time m
                                     else m) (meetings d1)),
                    Return (msg_body "Meeting updated successfully") 200)).
  { subst r. unfold manage_meeting.
    rewrite Hacc, Hmeet, Hprof, Hcr, Nat.eqb_refl.
    cbn [orb negb]. rewrite Href, Htok. cbn [negb].
    unfold parse_time_or.
    cbn [MeetingUpdate.start_time MeetingUpdate.end_time truthy_str].
    apply String.eqb_neq in Hs. apply String.eqb_neq in He.
    rewrite Hs, He. cbn [negb]. rewrite Hps, Hpe.
    destruct (Meeting.webex_id meeting) as [w |] eqn:Hw; [| reflexivity].
    destruct (String.eqb w "") eqn:Hwe; [reflexivity |].
    apply String.eqb_neq in Hwe. rewrite (Hupd w eq_refl Hwe). reflexivity. }
  rewrite Hr. cbn [fst snd]. split; [reflexivity |].
  unfold meeting_get. cbn [meetings set_meetings]. rewrite Hm. split.
  - rewrite meeting_get_map_times. unfold meeting_get in Hmeet. rewrite Hmeet.
    simpl. rewrite Hid. reflexivity.
  - intros j Hj. rewrite meeting_get_map_times.
    destruct (find (meeting_has_id j) (meetings d)) as [m |] eqn:Hf;
      [| reflexivity].
    simpl. apply find_some in Hf. destruct Hf as [_ Hf].
    rewrite (meeting_has_id_two meeting_id j m Hf Hj). reflexivity.
Qed.

End ManageMeetingProperties.

(** ** The WebEx connection of an account *)

Lemma query_get_update_row_keyed {A : Type} (id : A -> nat) (i j : nat)
      (f : A -> A) (tbl : list A) :
  (forall r, id r = i -> id (f r) = i) ->
  query_get id (update_row id i f tbl) j
  = option_map (fun r => if Nat.eqb (id r) i then f r else r) (query_get id tbl j).
Proof.
  intros Hid. unfold query_get, update_row.
  induction tbl as [| x tbl IH]; simpl; [reflexivity |].
  destruct (Nat.eqb (id x) i) eqn:E.
  - apply Nat.eqb_eq in E. rewrite (Hid x E), <- E.
    destruct (Nat.eqb (id x) j); [simpl; rewrite Nat.eqb_refl; reflexivity |].
    rewrite E. exact IH.
  - destruct (Nat.eqb (id x) j); [simpl; rewrite E; reflexivity | exact IH].
Qed.

Section WebexAccountProperties.

Variable exchange_code : string -> call TokenData.t.

(** X22: [connect_webex] never changes the stored token expiry of any
    account, whatever [expires_in] the service reports: the expiry it
    computes goes to [webex_token_expire_at], an attribute no handler
    reads. *)
Theorem connect_webex_keeps_expiry
        (d : DB) (current_user_id : nat) (code : option string) (i : nat) :
  option_map Account.webex_token_expires_at
    (query_get Account.id
       (accounts (fst (connect_webex exchange_code d current_user_id code))) i)
  = option_map Account.webex_token_expires_at
      (query_get Account.id (accounts d) i).
Proof.
  unfold connect_webex.
  destruct (query_get Account.id (accounts d) current_user_id) as [account |]
    eqn:Hacc; [| reflexivity].
  destruct (negb (truthy_str code)); [reflexivity |].
  destruct code as [code |]; [| reflexivity].
  destruct (exchange_code code) as [td |]; [| reflexivity].
  cbn [fst accounts set_accounts].
  rewrite query_get_update_row_keyed by (intros r Hr; reflexivity).
  destruct (query_get Account.id (accounts d) i) as [x |] eqn:Hx; [| reflexivity].
  cbn [option_map].
  destruct (Nat.eqb (Account.id x) (Account.id account)) eqn:E; [| reflexivity].
  apply Nat.eqb_eq in E.
  pose proof (query_get_In _ _ _ _ Hx) as [_ Hxi].
  pose proof (query_get_In _ _ _ _ Hacc) as [_ Hai].
  assert (Hi : i = current_user_id) by congruence.
  rewrite Hi, Hacc in Hx. inversion Hx. reflexivity.
Qed.

(** X23: connecting and disconnecting.  After a [connect_webex] whose
    exchange returns an access token, [get_webex_status] reports the account
    connected; after a [webex_disconnect] that follows, it reports it not
    connected, and the account holds no access token, no refresh token and
    no expiry. *)
Theorem connect_then_disconnect
        (d : DB) (current_user_id : nat) (account : Account.t)
        (code token : string) (td : TokenData.t) :
  query_get Account.id (accounts d) current_user_id = Some account ->
  code <> "" ->
  exchange_code code = Ok td ->
  TokenData.access_token td = Some token ->
  let d1 := fst (connect_webex exchange_code d current_user_id (Some code)) in
  let d2 := fst (webex_disconnect d1 current_user_id) in
  get_webex_status d1 current_user_id
  = Return (JDict [("connected", JBool true)]) 200
  /\ get_webex_status d2 current_user_id
     = Return (JDict [("connected", JBool false)]) 200
  /\ query_get Account.id (accounts d2) current_user_id
     = Some (Account_set_tokens None None None account).
Proof.
  intros Hacc Hcode Hex Htok d1 d2.
  pose proof (query_get_In _ _ _ _ Hacc) as [_ Hid].
  assert (H1 : query_get Account.id (accounts d1) current_user_id
               = Some (Account_set_tokens (Some token) (TokenData.refresh_token td)
                         (Account.webex_token_expires_at account) account)).
  { subst d1. unfold connect_webex. rewrite Hacc. cbn [truthy_str].
    apply String.eqb_neq in Hcode. rewrite Hcode. cbn [negb].
    rewrite Hex, Htok. cbn [fst accounts set_accounts].
    rewrite query_get_update_row_keyed by (intros r Hr; reflexivity).
    rewrite Hid, Hacc. cbn [option_map]. rewrite Hid, Nat.eqb_refl. reflexivity. }
  assert (H2 : query_get Account.id (accounts d2) current_user_id
               = Some (Account_set_tokens None None None account)).
  { subst d2. unfold webex_disconnect. rewrite H1.
    cbn [fst accounts set_accounts Account.id Account_set_tokens].
    rewrite query_get_update_row_keyed by (intros r Hr; exact Hr).
    rewrite Hid, H1. cbn [option_map Account.id Account_set_tokens].
    rewrite Hid, Nat.eqb_refl. reflexivity. }
  split; [| split; [| exact H2]].
  - unfold get_webex_status. rewrite H1. reflexivity.
  - unfold get_webex_status. rewrite H2. reflexivity.
Qed.

End WebexAccountProperties.

(** ** Notifications *)

Lemma query_get_filter_same {A : Type} (id : A -> nat) (i : nat) (l : list A) :
  query_get id (filter (fun x => negb (Nat.eqb (id x) i)) l) i = None.
Proof.
  unfold query_get. apply find_none_intro. intros x Hx.
  apply filter_In in Hx. destruct Hx as [_ Hx].
  destruct (Nat.eqb (id x) i); [discriminate | reflexivity].
Qed.

Lemma query_get_filter_other {A : Type} (id : A -> nat) (i j : nat) (l : list A) :
  j <> i ->
  query_get id (filter (fun x => negb (Nat.eqb (id x) i)) l) j = query_get id l j.
Proof.
  intros Hne. unfold query_get.
  induction l as [| x l IH]; simpl; [reflexivity |].
  destruct (Nat.eqb (id x) j) eqn:Ej.
  - apply Nat.eqb_eq in Ej.
    replace (Nat.eqb (id x) i) with false
      by (symmetry; apply Nat.eqb_neq; congruence).
    simpl. rewrite <- Ej, Nat.eqb_refl. reflexivity.
  - destruct (negb (Nat.eqb (id x) i)); simpl; [rewrite Ej |]; exact IH.
Qed.

Lemma update_row_twice {A : Type} (id : A -> nat) (i : nat) (f : A -> A)
      (l : list A) :
  (forall r, id (f r) = id r) -> (forall r, f (f r) = f r) ->
  update_row id i f (update_row id i f l) = update_row id i f l.
Proof.
  intros Hid Hf. unfold update_row. rewrite map_map. apply map_ext.
  intros x. destruct (Nat.eqb (id x) i) eqn:E.
  - rewrite Hid, E, Hf. reflexivity.
  - rewrite E. reflexivity.
Qed.

(** The cases of the two notification handlers. *)
Lemma notification_handlers_cases
      (d : DB) (current_user_id notification_id : nat) :
  let owned :=
    exists notif account,
      query_get Notification.id (notifications d) notification_id = Some notif
      /\ query_get Account.id (accounts d) current_user_id = Some account
      /\ Notification.account_id notif = current_user_id in
  (mark_notification_read d current_user_id notification_id
   = (d, Return (msg_body "Notification not found") 404)
   \/ (code_of (snd (mark_notification_read d current_user_id notification_id)) = 200
       /\ owned))
  /\ (delete_notification d current_user_id notification_id
      = (d, Return (msg_body "Notification not found") 404)
      \/ (code_of (snd (delete_notification d current_user_id notification_id)) = 200
          /\ owned)).
Proof.
  unfold mark_notification_read, delete_notification.
  destruct (query_get Notification.id (notifications d) notification_id)
    as [notif |]; [| split; left; reflexivity].
  destruct (query_get Account.id (accounts d) current_user_id) as [account |] eqn:Ha;
    [| split; left; reflexivity].
  pose proof (query_get_In _ _ _ _ Ha) as [_ Hid].
  destruct (Nat.eqb (Notification.account_id notif) (Account.id account)) eqn:E;
    cbn [negb]; [| split; left; reflexivity].
  apply Nat.eqb_eq in E.
  split; right; (split; [reflexivity |]); exists notif, account;
    repeat split; congruence.
Qed.

(** X24: a notification can be marked read or deleted by its owner only.
    For a notification id that fits the signed 64-bit integer of the store
    (a larger one overflows in [Notification.query.get] and the handler does
    not answer), each of the two handlers either answers 200, and then the
    notification exists and belongs to the calling account, or answers the
    one 404 "Notification not found" and writes nothing: a notification of
    someone else cannot be told from a missing one. *)
Theorem notification_owner_only
        (d : DB) (current_user_id notification_id : nat) :
  (Z.of_nat notification_id < 9223372036854775808)%Z ->
  let owned :=
    exists notif account,
      query_get Notification.id (notifications d) notification_id = Some notif
      /\ query_get Account.id (accounts d) current_user_id = Some account
      /\ Notification.account_id notif = current_user_id in
  (mark_notification_read d current_user_id notification_id
   = (d, Return (msg_body "Notification not found") 404)
   \/ (code_of (snd (mark_notification_read d current_user_id notification_id)) = 200
       /\ owned))
  /\ (delete_notification d current_user_id notification_id
      = (d, Return (msg_body "Notification not found") 404)
      \/ (code_of (snd (delete_notification d current_user_id notification_id)) = 200
          /\ owned)).
Proof.
  intros _. exact (notification_handlers_cases d current_user_id notification_id).
Qed.

(** X25: deleting a notification.  When the owner deletes a notification,
    the answer is 200, the notification is no longer found, every other
    notification is found as before, and marking the deleted one read is
    then answered 404. *)
Theorem delete_notification_removes
        (d : DB) (current_user_id notification_id : nat)
        (account : Account.t) (notif : Notification.t) :
  query_get Account.id (accounts d) current_user_id = Some account ->
  query_get Notification.id (notifications d) notification_id = Some notif ->
  Notification.account_id notif = Account.id account ->
  let r := delete_notification d current_user_id notification_id in
  snd r = Return (msg_body "Deleted") 200
  /\ query_get Notification.id (notifications (fst r)) notification_id = None
  /\ (forall j, j <> notification_id ->
        query_get Notification.id (notifications (fst r)) j
        = query_get Notification.id (notifications d) j)
  /\ mark_notification_read (fst r) current_user_id notification_id
     = (fst r, Return (msg_body "Notification not found") 404).
Proof.
  intros Hacc Hn Hown r.
  pose proof (query_get_In _ _ _ _ Hn) as [_ Hid].
  assert (Hr : r = (set_notifications d
                      (filter (fun n => negb (Nat.eqb (Notification.id n)
                                                      notification_id))
                              (notifications d)),
                    Return (msg_body "Deleted") 200)).
  { subst r. unfold delete_notification.
    rewrite Hacc, Hn, Hown, Nat.eqb_refl, Hid. reflexivity. }
  rewrite Hr. cbn [fst snd notifications set_notifications].
  split; [reflexivity |].
  split; [apply query_get_filter_same |].
  split; [intros j Hj; apply query_get_filter_other; exact Hj |].
  unfold mark_notification_read.
  cbn [notifications set_notifications accounts].
  rewrite query_get_filter_same. reflexivity.
Qed.

(** X26: marking a notification read.  When the owner marks a notification
    read, the answer is 200, the notification is found with [read] set and
    nothing else of it changed, every other notification is found as
    before, and marking it again changes nothing more. *)
Theorem mark_notification_read_sets_flag
        (d : DB) (current_user_id notification_id : nat)
        (account : Account.t) (notif : Notification.t) :
  query_get Account.id (accounts d) current_user_id = Some account ->
  query_get Notification.id (notifications d) notification_id = Some notif ->
  Notification.account_id notif = Account.id account ->
  let r := mark_notification_read d current_user_id notification_id in
  snd r = Return (msg_body "Marked as read") 200
  /\ query_get Notification.id (notifications (fst r)) notification_id
     = Some (Notification_set_read true notif)
  /\ (forall j, j <> notification_id ->
        query_get Notification.id (notifications (fst r)) j
        = query_get Notification.id (notifications d) j)
  /\ fst (mark_notification_read (fst r) current_user_id notification_id) = fst r.
Proof.
  intros Hacc Hn Hown r.
  pose proof (query_get_In _ _ _ _ Hn) as [_ Hid].
  assert (Hr : r = (set_notifications d
                      (update_row Notification.id notification_id
                                  (Notification_set_read true) (notifications d)),
                    Return (msg_body "Marked as read") 200)).
  { subst r. unfold mark_notification_read.
    rewrite Hacc, Hn, Hown, Nat.eqb_refl, Hid. reflexivity. }
  rewrite Hr. cbn [fst snd notifications set_notifications].
  assert (Hq : query_get Notification.id
                 (update_row Notification.id notification_id
                    (Notification_set_read true) (notifications d))
                 notification_id
               = Some (Notification_set_read true notif))
    by (apply query_get_update_row; [reflexivity | exact Hn]).
  split; [reflexivity |]. split; [exact Hq |].
  split; [intros j Hj; apply query_get_update_row_other;
          [reflexivity | exact Hj] |].
  unfold mark_notification_read.
  cbn [notifications set_notifications accounts].
  rewrite Hacc, Hq.
  cbn [Notification.account_id Notification.id Notification_set_read].
  rewrite Hown, Nat.eqb_refl, Hid. cbn [negb fst].
  unfold set_notifications. cbn.
  rewrite update_row_twice; reflexivity.
Qed.

(** ** Instances of the further properties on the sample states *)

Lemma db0_accounts_wf : accounts_wf db0.
Proof.
  split; simpl.
  - constructor; [intros [H | []]; discriminate | constructor; [intros [] | constructor]].
  - constructor; [intros [H | []]; discriminate | constructor; [intros [] | constructor]].
Qed.

Lemma strong_password_meets_policy : meets_policy (codepoints "Str0ng!Pass").
Proof. apply password_valid_iff. reflexivity. Qed.

Lemma register_keeps_accounts_wf_witness :
  accounts_wf db0
  /\ accounts_wf
       (fst (register sample_hash db0
               (Some (RegisterData.mk (Some "carol@example.com")
                                      (Some (codepoints "Str0ng!Pass")) None)))).
Proof.
  split; [exact db0_accounts_wf |].
  apply (register_keeps_accounts_wf sample_hash db0 _ db0_accounts_wf).
Defined.

Lemma register_then_login_witness :
  "carol@example.com" <> ""
  /\ meets_policy (codepoints "Str0ng!Pass")
  /\ ~ In "carol@example.com" (map Account.email (accounts db0))
  /\ check_any (sample_hash (codepoints "Str0ng!Pass")) (codepoints "Str0ng!Pass")
     = true
  /\ login check_any sample_token
       (fst (register sample_hash db0
               (Some (RegisterData.mk (Some "carol@example.com")
                                      (Some (codepoints "Str0ng!Pass")) None))))
       (Some (LoginData.mk (Some "carol@example.com")
                           (Some (codepoints "Str0ng!Pass"))))
     = Return (JDict [("access_token", JStr "jwt-3"); ("account_id", JInt 3)]) 200.
Proof.
  assert (He : "carol@example.com" <> "") by discriminate.
  assert (Hnew : ~ In "carol@example.com" (map Account.email (accounts db0)))
    by (simpl; intros [H | [H | []]]; discriminate).
  split; [exact He |]. split; [exact strong_password_meets_policy |].
  split; [exact Hnew |]. split; [reflexivity |].
  exact (register_then_login sample_hash check_any sample_token db0
           "carol@example.com" (codepoints "Str0ng!Pass") None
           He strong_password_meets_policy Hnew eq_refl).
Defined.


Lemma like_then_unlike_restores_witness :
  query_get Account.id (accounts db_posted) 1 = Some alice
  /\ query_get Post.id (posts db_posted) 1 = Some (Post.mk 1 1 "Hello" 1 0 [2])
  /\ mem 1 [2] = false
  /\ (0 <= 1)%Z
  /\ query_get Post.id
       (posts (fst (unlike_post (fst (like_post db_posted 1 1)) 1 1))) 1
     = Some (Post.mk 1 1 "Hello" 1 0 [2]).
Proof.
  assert (Hpos : (0 <= 1)%Z) by lia.
  do 3 (split; [reflexivity |]). split; [exact Hpos |].
  exact (proj1 (like_then_unlike_restores db_posted 1 1 alice
                  (Post.mk 1 1 "Hello" 1 0 [2]) eq_refl eq_refl eq_refl Hpos)).
Defined.

Lemma like_unlike_frame_witness :
  2 <> 1
  /\ query_get Post.id (posts (fst (like_post db_posted 1 1))) 2
     = query_get Post.id (posts db_posted) 2.
Proof.
  assert (Hne : 2 <> 1) by discriminate.
  split; [exact Hne |].
  exact (proj1 (like_unlike_frame db_posted 1 1 2 Hne)).
Defined.

Lemma db_requested_symmetric : relations_symmetric db_requested.
Proof. intros r []. Qed.

Lemma send_friend_request_keeps_symmetry_witness :
  relations_symmetric db_requested
  /\ relations_symmetric
       (fst (send_friend_request "accepted" db_requested 2
               (Some (FriendRequestData.mk (Some 1))))).
Proof.
  split; [exact db_requested_symmetric |].
  apply (send_friend_request_keeps_symmetry "accepted" db_requested 2 _
           db_requested_symmetric).
Defined.

Lemma send_friend_request_keeps_pairs_unique_witness :
  relation_pairs_unique db_requested
  /\ relation_pairs_unique
       (fst (send_friend_request "accepted" db_requested 2
               (Some (FriendRequestData.mk (Some 1))))).
Proof.
  assert (H : relation_pairs_unique db_requested) by constructor.
  split; [exact H |].
  apply (send_friend_request_keeps_pairs_unique "accepted" db_requested 2 _ H).
Defined.

Lemma send_friend_request_first_request_raises_witness :
  query_get Account.id (accounts db0) 1 = Some alice
  /\ first_profile db0 alice = Some room9
  /\ query_get Profile.id (profiles db0) 2 = Some room4
  /\ send_friend_request "accepted" db0 1 (Some (FriendRequestData.mk (Some 2)))
     = (db0, Raise "IntegrityError").
Proof.
  do 3 (split; [reflexivity |]).
  assert (H0 : Profile.id room4 <> 0) by (simpl; discriminate).
  assert (Hne : Profile.id room9 <> Profile.id room4) by (simpl; discriminate).
  exact (send_friend_request_first_request_raises "accepted" db0 1 alice room9
           room4 eq_refl eq_refl eq_refl H0 Hne
           (fun r (H : In r []) => match H with end)
           (fun q (H : In q []) => match H with end)).
Defined.

Lemma mutual_shortcut_resolves_first_only_witness :
  find (pending_from_to 1 2) (friend_requests db_two_requests)
  = Some (FriendRequest.mk 1 1 2 "pending")
  /\ snd (send_friend_request "accepted" db_two_requests 2
            (Some (FriendRequestData.mk (Some 1))))
     = Return (status_body "Friend request accepted (mutual)" "accepted") 200
  /\ In (FriendRequest.mk 2 1 2 "pending")
        (friend_requests
           (fst (send_friend_request "accepted" db_two_requests 2
                   (Some (FriendRequestData.mk (Some 1)))))).
Proof.
  split; [reflexivity |].
  assert (H0 : Profile.id room9 <> 0) by (simpl; discriminate).
  assert (Hne : Profile.id room4 <> Profile.id room9) by (simpl; discriminate).
  assert (Hfwd : forall q, In q (friend_requests db_two_requests) ->
                           pending_from_to (Profile.id room4) (Profile.id room9) q
                           = false).
  { intros q [H | [H | []]]; subst q; reflexivity. }
  destruct (mutual_shortcut_resolves_first_only "accepted" db_two_requests 2 bob
              room4 room9 (FriendRequest.mk 1 1 2 "pending")
              eq_refl eq_refl eq_refl H0 Hne
              (fun r (H : In r []) => match H with end) Hfwd eq_refl)
    as [Hs [_ Hrest]].
  split; [exact Hs |].
  apply Hrest.
  - right. left. reflexivity.
  - reflexivity.
  - simpl. discriminate.
Defined.

Lemma create_invitation_ignores_trailing_Z_witness :
  "2030-01-01T10:00:00" <> ""
  /\ endswith_Z "2030-01-01T10:00:00" = false
  /\ create_webex_meeting fromisoformat_5000 sample_isoformat sample_py_int
       db0 1000 1
       (MeetingData.mk None (Some "2030-01-01T10:00:00Z")
                       (Some "2030-01-01T11:00:00") (Some (CInt 2)))
     = create_webex_meeting fromisoformat_5000 sample_isoformat sample_py_int
         db0 1000 1
         (MeetingData.mk None (Some "2030-01-01T10:00:00")
                         (Some "2030-01-01T11:00:00") (Some (CInt 2))).
Proof.
  assert (Hs : "2030-01-01T10:00:00" <> "") by discriminate.
  split; [exact Hs |]. split; [reflexivity |].
  exact (proj1 (create_invitation_ignores_trailing_Z fromisoformat_5000
                  sample_isoformat sample_py_int db0 1000 1 None
                  (Some (CInt 2)) "2030-01-01T10:00:00"
                  (Some "2030-01-01T11:00:00") Hs eq_refl)).
Defined.

Lemma decline_then_accept_conflicts_witness :
  query_get Account.id (accounts db_invited) 2 = Some bob
  /\ first_profile db_invited bob = Some room4
  /\ query_get MeetingInvitation.id (meeting_invitations db_invited) 1
     = Some (MeetingInvitation.mk 1 1 2 "Pen pal call" 100 200 "pending" None)
  /\ snd (decline_invitation db_invited 2 1)
     = Return (msg_body "Invitation declined successfully") 200
  /\ snd (accept_invitation sample_isoformat refresh_raises create_meeting_ok
            (fst (decline_invitation db_invited 2 1)) 2000 2 1)
     = Return (msg_body "Invitation is already declined") 400.
Proof.
  do 3 (split; [reflexivity |]).
  destruct (decline_then_accept_conflicts sample_isoformat refresh_raises
              create_meeting_ok db_invited 2000 2 1 bob room4
              (MeetingInvitation.mk 1 1 2 "Pen pal call" 100 200 "pending" None)
              eq_refl eq_refl eq_refl eq_refl eq_refl)
    as [H1 [_ [_ [_ H2]]]].
  split; [exact H1 |]. rewrite H2. reflexivity.
Defined.

Lemma cancel_then_accept_conflicts_witness :
  query_get Account.id (accounts db_invited) 1 = Some alice
  /\ first_profile db_invited alice = Some room9
  /\ query_get Account.id (accounts db_invited) 2 = Some bob
  /\ first_profile db_invited bob = Some room4
  /\ snd (cancel_invitation db_invited 1 1)
     = Return (msg_body "Invitation cancelled successfully") 200
  /\ snd (accept_invitation sample_isoformat refresh_raises create_meeting_ok
            (fst (cancel_invitation db_invited 1 1)) 2000 2 1)
     = Return (msg_body "Invitation is already cancelled") 400.
Proof.
  do 4 (split; [reflexivity |]).
  destruct (cancel_then_accept_conflicts sample_isoformat refresh_raises
              create_meeting_ok db_invited 2000 1 2 1 alice bob room9 room4
              (MeetingInvitation.mk 1 1 2 "Pen pal call" 100 200 "pending" None)
              eq_refl eq_refl eq_refl eq_refl eq_refl eq_refl eq_refl eq_refl)
    as [H1 [_ [_ H2]]].
  split; [exact H1 |]. rewrite H2. reflexivity.
Defined.

Lemma accept_twice_conflicts_witness :
  query_get Account.id (accounts db_invited) 2 = Some bob
  /\ first_profile db_invited bob = Some room4
  /\ refresh_if_expired refresh_raises db_invited 1000 alice = Some (db_invited, alice)
  /\ code_of (snd (accept_invitation sample_isoformat refresh_raises
                     create_meeting_ok db_invited 1000 2 1)) = 201
  /\ snd (accept_invitation sample_isoformat refresh_raises create_meeting_raises
            (fst (accept_invitation sample_isoformat refresh_raises
                    create_meeting_ok db_invited 1000 2 1)) 2000 2 1)
     = Return (msg_body "Invitation is already accepted") 400.
Proof.
  do 3 (split; [reflexivity |]).
  destruct (accept_twice_conflicts sample_isoformat sample_isoformat
              refresh_raises refresh_raises create_meeting_ok create_meeting_raises
              db_invited 1000 2000 2 1 bob room4
              (MeetingInvitation.mk 1 1 2 "Pen pal call" 100 200 "pending" None)
              room9 alice db_invited alice
              (WebexMeeting.mk (Some "wbx-1") (Some "Pen pal call")
                 (Some "https://meet.webex.com/wbx-1") (Some "pw1"))
              eq_refl eq_refl eq_refl eq_refl eq_refl eq_refl eq_refl eq_refl
              eq_refl eq_refl)
    as [H1 H2].
  split; [exact H1 |]. rewrite H2. reflexivity.
Defined.

Lemma refresh_if_expired_settles_witness :
  refresh_if_expired refresh_ok db_expired 1000 alice_expired
  = Some (db_refreshed, alice_refreshed)
  /\ refresh_if_expired refresh_raises db_refreshed 1000 alice_refreshed
     = Some (db_refreshed, alice_refreshed).
Proof.
  assert (H : refresh_if_expired refresh_ok db_expired 1000 alice_expired
              = Some (db_refreshed, alice_refreshed)) by reflexivity.
  split; [exact H |].
  apply (proj1 (refresh_if_expired_settles refresh_ok refresh_raises
                  db_expired db_refreshed 1000 alice_expired alice_refreshed H)).
  intros td Htd. exists 3600%Z. inversion Htd. split; [reflexivity | lia].
Defined.

Lemma manage_meeting_writes_on_success_only_witness :
  (GET = GET
   \/ code_of (snd (manage_meeting sample_fromisoformat sample_isoformat
                      refresh_raises delete_ok update_ok db_met 1000 GET 2 1
                      (MeetingUpdate.mk None None))) <> 200)
  /\ meetings (fst (manage_meeting sample_fromisoformat sample_isoformat
                      refresh_raises delete_ok update_ok db_met 1000 GET 2 1
                      (MeetingUpdate.mk None None))) = meetings db_met.
Proof.
  assert (H : GET = GET
              \/ code_of (snd (manage_meeting sample_fromisoformat sample_isoformat
                                 refresh_raises delete_ok update_ok db_met 1000
                                 GET 2 1 (MeetingUpdate.mk None None))) <> 200)
    by (left; reflexivity).
  split; [exact H |].
  exact (proj1 (manage_meeting_writes_on_success_only sample_fromisoformat
                  sample_isoformat refresh_raises delete_ok update_ok db_met 1000
                  GET 2 1 (MeetingUpdate.mk None None) H)).
Defined.

Lemma manage_meeting_creator_only_witness :
  query_get Account.id (accounts db_met) 2 = Some bob
  /\ meeting_get db_met 1 = Some met
  /\ first_profile db_met bob = Some room4
  /\ Meeting.creator_id met <> Profile.id room4
  /\ DELETE <> GET
  /\ meetings (fst (manage_meeting sample_fromisoformat sample_isoformat
                      refresh_raises delete_ok update_ok db_met 1000 DELETE 2 1
                      (MeetingUpdate.mk None None))) = meetings db_met.
Proof.
  assert (Hne : Meeting.creator_id met <> Profile.id room4) by (simpl; discriminate).
  assert (Hm : DELETE <> GET) by discriminate.
  do 3 (split; [reflexivity |]). split; [exact Hne |]. split; [exact Hm |].
  exact (proj2 (manage_meeting_creator_only sample_fromisoformat sample_isoformat
                  refresh_raises delete_ok update_ok db_met 1000 DELETE 2 1
                  (MeetingUpdate.mk None None) bob met room4
                  eq_refl eq_refl eq_refl Hne Hm)).
Defined.

Lemma manage_meeting_delete_failure_keeps_meeting_witness :
  query_get Account.id (accounts db_met) 1 = Some alice
  /\ meeting_get db_met 1 = Some met
  /\ first_profile db_met alice = Some room9
  /\ refresh_if_connected refresh_raises db_met 1000 alice = (db_met, alice)
  /\ snd (manage_meeting sample_fromisoformat sample_isoformat refresh_raises
            delete_raises update_ok db_met 1000 DELETE 1 1
            (MeetingUpdate.mk None None))
     = Return (msg_body "Failed to delete meeting: 404 Not Found") 500
  /\ meeting_get
       (fst (manage_meeting sample_fromisoformat sample_isoformat refresh_raises
               delete_raises update_ok db_met 1000 DELETE 1 1
               (MeetingUpdate.mk None None))) 1
     = Some met.
Proof.
  assert (Hw : "wbx-1" <> "") by discriminate.
  do 4 (split; [reflexivity |]).
  exact (manage_meeting_delete_failure_keeps_meeting sample_fromisoformat
           sample_isoformat refresh_raises delete_raises update_ok
           db_met db_met 1000 1 1 (MeetingUpdate.mk None None) alice alice met
           room9 "wbx-1" "404 Not Found"
           eq_refl eq_refl eq_refl eq_refl eq_refl eq_refl eq_refl Hw eq_refl).
Defined.

Lemma manage_meeting_delete_removes_witness :
  query_get Account.id (accounts db_met) 1 = Some alice
  /\ meeting_get db_met 1 = Some met
  /\ first_profile db_met alice = Some room9
  /\ snd (manage_meeting sample_fromisoformat sample_isoformat refresh_raises
            delete_ok update_ok db_met 1000 DELETE 1 1 (MeetingUpdate.mk None None))
     = Return (msg_body "Meeting deleted successfully") 200
  /\ meeting_get
       (fst (manage_meeting sample_fromisoformat sample_isoformat refresh_raises
               delete_ok update_ok db_met 1000 DELETE 1 1
               (MeetingUpdate.mk None None))) 1
     = None.
Proof.
  do 3 (split; [reflexivity |]).
  destruct (manage_meeting_delete_removes sample_fromisoformat sample_isoformat
              refresh_raises delete_ok update_ok db_met db_met 1000 2000 1 1
              (MeetingUpdate.mk None None) (MeetingUpdate.mk None None)
              alice alice met room9
              eq_refl eq_refl eq_refl eq_refl eq_refl eq_refl
              (fun _ _ _ => eq_refl))
    as [H1 [H2 _]].
  split; [exact H1 | exact H2].
Defined.

Lemma manage_meeting_put_updates_times_witness :
  query_get Account.id (accounts db_met) 1 = Some alice
  /\ meeting_get db_met 1 = Some met
  /\ first_profile db_met alice = Some room9
  /\ fromisoformat_5000 (strip_Z "2030-01-01T10:00:00Z") = Some 5000%Z
  /\ meeting_get
       (fst (manage_meeting fromisoformat_5000 sample_isoformat refresh_raises
               delete_ok update_ok db_met 1000 PUT 1 1
               (MeetingUpdate.mk (Some "2030-01-01T10:00:00Z")
                                 (Some "2030-01-01T11:00:00Z")))) 1
     = Some (Meeting_set_times 5000 5000 met).
Proof.
  assert (Hs : "2030-01-01T10:00:00Z" <> "") by discriminate.
  assert (He : "2030-01-01T11:00:00Z" <> "") by discriminate.
  do 4 (split; [reflexivity |]).
  destruct (manage_meeting_put_updates_times fromisoformat_5000 sample_isoformat
              refresh_raises delete_ok update_ok db_met db_met 1000 1 1
              alice alice met room9
              "2030-01-01T10:00:00Z" "2030-01-01T11:00:00Z" 5000%Z 5000%Z
              eq_refl eq_refl eq_refl eq_refl eq_refl eq_refl Hs He
              eq_refl eq_refl (fun _ _ _ => eq_refl))
    as [_ [H2 _]].
  exact H2.
Defined.

Lemma connect_then_disconnect_witness :
  query_get Account.id (accounts db0) 2 = Some bob
  /\ "auth-code" <> ""
  /\ get_webex_status (fst (connect_webex exchange_ok db0 2 (Some "auth-code"))) 2
     = Return (JDict [("connected", JBool true)]) 200
  /\ get_webex_status
       (fst (webex_disconnect
               (fst (connect_webex exchange_ok db0 2 (Some "auth-code"))) 2)) 2
     = Return (JDict [("connected", JBool false)]) 200.
Proof.
  assert (Hc : "auth-code" <> "") by discriminate.
  split; [reflexivity |]. split; [exact Hc |].
  destruct (connect_then_disconnect exchange_ok db0 2 bob "auth-code" "token-b"
              (TokenData.mk (Some "token-b") (Some "refresh-b") (Some 3600%Z))
              eq_refl Hc eq_refl eq_refl)
    as [H1 [H2 _]].
  split; [exact H1 | exact H2].
Defined.

Lemma delete_notification_removes_witness :
  query_get Account.id (accounts db_notified) 2 = Some bob
  /\ query_get Notification.id (notifications db_notified) 1 = Some bobs_notification
  /\ Notification.account_id bobs_notification = Account.id bob
  /\ snd (delete_notification db_notified 2 1) = Return (msg_body "Deleted") 200
  /\ query_get Notification.id
       (notifications (fst (delete_notification db_notified 2 1))) 1 = None.
Proof.
  do 3 (split; [reflexivity |]).
  destruct (delete_notification_removes db_notified 2 1 bob bobs_notification
              eq_refl eq_refl eq_refl)
    as [H1 [H2 _]].
  split; [exact H1 | exact H2].
Defined.

Lemma mark_notification_read_sets_flag_witness :
  query_get Account.id (accounts db_notified) 2 = Some bob
  /\ query_get Notification.id (notifications db_notified) 1 = Some bobs_notification
  /\ Notification.account_id bobs_notification = Account.id bob
  /\ query_get Notification.id
       (notifications (fst (mark_notification_read db_notified 2 1))) 1
     = Some (Notification_set_read true bobs_notification).
Proof.
  do 3 (split; [reflexivity |]).
  destruct (mark_notification_read_sets_flag db_notified 2 1 bob bobs_notification
              eq_refl eq_refl eq_refl)
    as [_ [H2 _]].
  exact H2.
Defined.

Lemma create_invitation_outcomes_witness :
  let data := MeetingData.mk (Some "Math club") None None (Some (CInt 2)) in
  let r := create_webex_meeting sample_fromisoformat sample_isoformat
             sample_py_int db0 1000 1 data in
  (forall c z,
     MeetingData.classroom_id data = Some c ->
     classroom_ref_int sample_py_int c = Some z ->
     (- 9223372036854775808 <= z < 9223372036854775808)%Z)
  /\ code_of (snd r) = 201
  /\ meeting_invitations (fst r)
     = [MeetingInvitation.mk 1 1 2 "Math club" 1000 4600 "pending" None].
Proof.
  intros data r.
  assert (Hrange : forall c z,
             MeetingData.classroom_id data = Some c ->
             classroom_ref_int sample_py_int c = Some z ->
             (- 9223372036854775808 <= z < 9223372036854775808)%Z).
  { intros c z Hc Hz. inversion Hc. subst c. inversion Hz. lia. }
  split; [exact Hrange |].
  destruct (create_invitation_outcomes sample_fromisoformat sample_isoformat
              sample_py_int db0 1000 1 data Hrange)
    as [[_ Hc] | [inv [a [s [rc [Hd [Hc _]]]]]]].
  - destruct Hc as [Hc | Hc]; vm_compute in Hc; discriminate Hc.
  - split; [exact Hc | reflexivity].
Defined.

Lemma notification_owner_only_witness :
  (Z.of_nat 1 < 9223372036854775808)%Z
  /\ (mark_notification_read db_notified 1 1
      = (db_notified, Return (msg_body "Notification not found") 404)
      \/ code_of (snd (mark_notification_read db_notified 1 1)) = 200)
  /\ (delete_notification db_notified 1 1
      = (db_notified, Return (msg_body "Notification not found") 404)
      \/ code_of (snd (delete_notification db_notified 1 1)) = 200).
Proof.
  assert (Hid : (Z.of_nat 1 < 9223372036854775808)%Z) by reflexivity.
  split; [exact Hid |].
  destruct (notification_owner_only db_notified 1 1 Hid) as [[H1 | [H1 _]] [H2 | [H2 _]]];
    auto.
Defined.
